(** * MetaSignet: content fingerprinting and the verification ledger

    A shallow embedding of the fingerprinting and verification code of
    MetaSignet ([app.py], [verification.py], [database.py]) together with
    the properties its specification states about it.

    Python values are modelled as follows.
    - A [str] is a [string]; the character codes are the code points, so
      the model covers the code points up to U+00FF.
    - An [int] is a [Z]; fixed-width machine arithmetic inside the hash
      functions is written with its wrap-around.
    - A [dict] is a [gmap] keyed by strings.
    - A function that reads or writes ambient state takes the state and
      returns the new one; a function that can raise returns a [result]. *)

From Stdlib Require Import ZArith String Ascii List Lia DecimalString.
From stdpp Require Import gmap strings list fin_maps.

#[local] Open Scope string_scope.
#[local] Open Scope list_scope.
#[local] Open Scope Z_scope.

(** ** Python strings and bytes *)

Module Py.

Definition bytes := list Z.

Definition ord (c : ascii) : Z := Z.of_N (N_of_ascii c).

(** The code points of a [str], in order. *)
Definition codes (s : string) : list Z := map ord (list_ascii_of_string s).

(** [s.encode('utf-8')] for code points below 256: one byte below 128,
    two bytes from 128 on. *)
Definition utf8_of_code (c : Z) : bytes :=
  if c <? 128 then [c]
  else [Z.lor 192 (Z.shiftr c 6); Z.lor 128 (Z.land c 63)].

Definition encode_utf8 (s : string) : bytes :=
  flat_map utf8_of_code (codes s).

(** [str(n)] for an [int]. *)
Definition str_of_int (n : Z) : string := NilZero.string_of_int (Z.to_int n).

(** [sep.join(parts)]. *)
Fixpoint join (sep : string) (parts : list string) : string :=
  match parts with
  | [] => ""
  | [p] => p
  | p :: rest => p +:+ sep +:+ join sep rest
  end.

(** [s[:n]]. *)
Definition prefix (n : nat) (s : string) : string := String.substring 0 n s.

Definition hex_digit (d : Z) : ascii :=
  match d with
  | 0 => "0" | 1 => "1" | 2 => "2" | 3 => "3" | 4 => "4" | 5 => "5"
  | 6 => "6" | 7 => "7" | 8 => "8" | 9 => "9" | 10 => "a" | 11 => "b"
  | 12 => "c" | 13 => "d" | 14 => "e" | _ => "f"
  end%char.

(** Two lower-case hexadecimal digits per byte. *)
Fixpoint hex_of_bytes (bs : bytes) : string :=
  match bs with
  | [] => ""
  | b :: rest =>
      String (hex_digit (Z.shiftr b 4))
        (String (hex_digit (Z.land b 15)) (hex_of_bytes rest))
  end.

(** Whether character [c] occurs in [s]. *)
Fixpoint occurs (c : ascii) (s : string) : bool :=
  match s with
  | EmptyString => false
  | String d rest => Ascii.eqb c d || occurs c rest
  end.

End Py.

(** ** SHA-256, as computed by [hashlib.sha256] *)

Module SHA256.

Definition mask32 : Z := 4294967295.
Definition wrap32 (x : Z) : Z := Z.land x mask32.
Definition add32 (x y : Z) : Z := wrap32 (x + y).
Definition rotr (n x : Z) : Z :=
  Z.lor (Z.shiftr x n) (wrap32 (Z.shiftl x (32 - n))).

Definition choose (e f g : Z) : Z :=
  Z.lxor (Z.land e f) (Z.land (Z.lxor e mask32) g).
Definition majority (a b c : Z) : Z :=
  Z.lxor (Z.lxor (Z.land a b) (Z.land a c)) (Z.land b c).
Definition big_sigma0 (a : Z) : Z :=
  Z.lxor (Z.lxor (rotr 2 a) (rotr 13 a)) (rotr 22 a).
Definition big_sigma1 (e : Z) : Z :=
  Z.lxor (Z.lxor (rotr 6 e) (rotr 11 e)) (rotr 25 e).
Definition small_sigma0 (x : Z) : Z :=
  Z.lxor (Z.lxor (rotr 7 x) (rotr 18 x)) (Z.shiftr x 3).
Definition small_sigma1 (x : Z) : Z :=
  Z.lxor (Z.lxor (rotr 17 x) (rotr 19 x)) (Z.shiftr x 10).

(** The words written in a text of hexadecimal numbers. *)
Definition hex_value (c : ascii) : option Z :=
  let n := Py.ord c in
  if (48 <=? n) && (n <=? 57) then Some (n - 48)
  else if (97 <=? n) && (n <=? 102) then Some (n - 87)
  else None.

Fixpoint hex_words (s : string) (word : option Z) : list Z :=
  match s with
  | EmptyString => option_list word
  | String c rest =>
      match hex_value c with
      | Some d => hex_words rest (Some (16 * default 0 word + d))
      | None => option_list word ++ hex_words rest None
      end
  end.

(** The sixty-four round constants of FIPS 180-4. *)
Definition round_constants : list Z :=
  Eval vm_compute in
    hex_words
      ("428a2f98 71374491 b5c0fbcf e9b5dba5 3956c25b 59f111f1 923f82a4 ab1c5ed5 "
       +:+ "d807aa98 12835b01 243185be 550c7dc3 72be5d74 80deb1fe 9bdc06a7 c19bf174 "
       +:+ "e49b69c1 efbe4786 0fc19dc6 240ca1cc 2de92c6f 4a7484aa 5cb0a9dc 76f988da "
       +:+ "983e5152 a831c66d b00327c8 bf597fc7 c6e00bf3 d5a79147 06ca6351 14292967 "
       +:+ "27b70a85 2e1b2138 4d2c6dfc 53380d13 650a7354 766a0abb 81c2c92e 92722c85 "
       +:+ "a2bfe8a1 a81a664b c24b8b70 c76c51a3 d192e819 d6990624 f40e3585 106aa070 "
       +:+ "19a4c116 1e376c08 2748774c 34b0bcb5 391c0cb3 4ed8aa4a 5b9cca4f 682e6ff3 "
       +:+ "748f82ee 78a5636f 84c87814 8cc70208 90befffa a4506ceb bef9a3f7 c67178f2")
      None.

(** The eight chaining words. *)
Record chain := Chain { ha : Z; hb : Z; hc : Z; hd : Z;
                        he : Z; hf : Z; hg : Z; hh : Z }.

Definition initial_chain : chain :=
  Chain 0x6a09e667 0xbb67ae85 0x3c6ef372 0xa54ff53a
        0x510e527f 0x9b05688c 0x1f83d9ab 0x5be0cd19.

(** Big-endian bytes of a number, [n] of them. *)
Fixpoint be_bytes (n : nat) (x : Z) : Py.bytes :=
  match n with
  | O => []
  | S m => be_bytes m (Z.shiftr x 8) ++ [Z.land x 255]
  end.

Definition be_word (bs : Py.bytes) : Z :=
  fold_left (fun acc b => Z.lor (Z.shiftl acc 8) b) bs 0.

(** The message followed by the bit 1, zero bits up to 56 modulo 64
    bytes, and the bit length on eight bytes. *)
Definition pad (msg : Py.bytes) : Py.bytes :=
  let len := Z.of_nat (length msg) in
  msg ++ [128] ++ repeat 0 (Z.to_nat ((55 - len) mod 64))
      ++ be_bytes 8 (8 * len).

(** Cuts [bs] into pieces of [k] elements; [fuel] bounds the number of
    pieces. *)
Fixpoint pieces {A} (fuel k : nat) (bs : list A) : list (list A) :=
  match fuel, bs with
  | O, _ | _, [] => []
  | S fuel', _ => firstn k bs :: pieces fuel' k (skipn k bs)
  end.

Definition block_words (block : Py.bytes) : list Z :=
  map be_word (pieces 16 4 block).

(** The message schedule, newest word first: [recent] holds the words
    computed so far, so the word sixteen back is at index 15. *)
Fixpoint schedule (n : nat) (recent : list Z) : list Z :=
  match n with
  | O => recent
  | S m =>
      let next :=
        add32 (add32 (small_sigma1 (nth 1 recent 0)) (nth 6 recent 0))
              (add32 (small_sigma0 (nth 14 recent 0)) (nth 15 recent 0)) in
      schedule m (next :: recent)
  end.

Definition round (c : chain) (kw : Z * Z) : chain :=
  let t1 := add32 (add32 (add32 (hh c) (big_sigma1 (he c)))
                         (add32 (choose (he c) (hf c) (hg c)) (fst kw)))
                  (snd kw) in
  let t2 := add32 (big_sigma0 (ha c)) (majority (ha c) (hb c) (hc c)) in
  Chain (add32 t1 t2) (ha c) (hb c) (hc c)
        (add32 (hd c) t1) (he c) (hf c) (hg c).

Definition compress (c : chain) (block : Py.bytes) : chain :=
  let ws := rev (schedule 48 (rev (block_words block))) in
  let r := fold_left round (combine round_constants ws) c in
  Chain (add32 (ha c) (ha r)) (add32 (hb c) (hb r))
        (add32 (hc c) (hc r)) (add32 (hd c) (hd r))
        (add32 (he c) (he r)) (add32 (hf c) (hf r))
        (add32 (hg c) (hg r)) (add32 (hh c) (hh r)).

Definition digest (msg : Py.bytes) : Py.bytes :=
  let padded := pad msg in
  let c := fold_left compress (pieces (length padded) 64 padded)
                     initial_chain in
  flat_map (be_bytes 4)
    [ha c; hb c; hc c; hd c; he c; hf c; hg c; hh c].

(** [hashlib.sha256(msg).hexdigest()]. *)
Definition hexdigest (msg : Py.bytes) : string :=
  Py.hex_of_bytes (digest msg).

End SHA256.

(** ** The built-in [hash] of a [str]

    CPython (3.11 and later) hashes the characters of a [str] with
    SipHash-1-3 under a 128-bit key drawn when the interpreter starts: a
    fresh random key per process, unless [PYTHONHASHSEED] fixes it. The
    functions below follow [siphash13] and [_Py_HashBytes] of [pyhash.c]. *)

Module PyHash.

(** The per-process key. *)
Record secret := Secret { k0 : Z; k1 : Z }.

Definition mask64 : Z := 18446744073709551615.
Definition wrap64 (x : Z) : Z := Z.land x mask64.
Definition add64 (x y : Z) : Z := wrap64 (x + y).
Definition rotl (x b : Z) : Z :=
  Z.lor (wrap64 (Z.shiftl x b)) (Z.shiftr x (64 - b)).

Record lanes := Lanes { v0 : Z; v1 : Z; v2 : Z; v3 : Z }.

(** [HALF_ROUND(a,b,c,d,s,t)], returning the new [(a,b,c,d)]. *)
Definition half_round (a b c d s t : Z) : Z * Z * Z * Z :=
  let a1 := add64 a b in
  let c1 := add64 c d in
  let b1 := Z.lxor (rotl b s) a1 in
  let d1 := Z.lxor (rotl d t) c1 in
  (rotl a1 32, b1, c1, d1).

Definition single_round (v : lanes) : lanes :=
  let '(a, b, c, d) := half_round (v0 v) (v1 v) (v2 v) (v3 v) 13 16 in
  let '(c', b', a', d') := half_round c b a d 17 21 in
  Lanes a' b' c' d'.

(** Little-endian value of at most eight bytes. *)
Definition le_word (bs : Py.bytes) : Z :=
  fold_right (fun b acc => Z.lor b (Z.shiftl acc 8)) 0 bs.

Definition absorb (v : lanes) (m : Z) : lanes :=
  let r := single_round (Lanes (v0 v) (v1 v) (v2 v) (Z.lxor (v3 v) m)) in
  Lanes (Z.lxor (v0 r) m) (v1 r) (v2 r) (v3 r).

(** Absorbs the full eight-byte words of [src] and returns the lanes and
    the remaining bytes (fewer than eight). *)
Fixpoint absorb_words (fuel : nat) (v : lanes) (src : Py.bytes)
  : lanes * Py.bytes :=
  match fuel with
  | O => (v, src)
  | S fuel' =>
      if (8 <=? length src)%nat
      then absorb_words fuel' (absorb v (le_word (firstn 8 src)))
                        (skipn 8 src)
      else (v, src)
  end.

Definition siphash13 (key : secret) (src : Py.bytes) : Z :=
  let b := wrap64 (Z.shiftl (Z.of_nat (length src)) 56) in
  let v := Lanes (Z.lxor (k0 key) 0x736f6d6570736575)
                 (Z.lxor (k1 key) 0x646f72616e646f6d)
                 (Z.lxor (k0 key) 0x6c7967656e657261)
                 (Z.lxor (k1 key) 0x7465646279746573) in
  let '(v, tail) := absorb_words (length src) v src in
  let v := absorb v (Z.lor b (le_word tail)) in
  let v := Lanes (v0 v) (v1 v) (Z.lxor (v2 v) 255) (v3 v) in
  let v := single_round (single_round (single_round v)) in
  Z.lxor (Z.lxor (v0 v) (v1 v)) (Z.lxor (v2 v) (v3 v)).

(** A 64-bit pattern read as a signed [Py_hash_t]. *)
Definition signed64 (x : Z) : Z :=
  if x <? 9223372036854775808 then x else x - 18446744073709551616.

(** [_Py_HashBytes]: zero for no bytes, and never -1. *)
Definition hash_bytes (key : secret) (src : Py.bytes) : Z :=
  match src with
  | [] => 0
  | _ => let x := signed64 (siphash13 key src) in
         if x =? -1 then -2 else x
  end.

(** [hash(s)] for a [str] of one-byte characters. *)
Definition hash_str (key : secret) (s : string) : Z :=
  hash_bytes key (Py.codes s).

(** The key of a run started with [PYTHONHASHSEED=seed], for a seed other
    than 0: the first sixteen bytes that [lcg_urandom] of
    [bootstrap_hash.c] draws, read as two little-endian words. *)
Fixpoint lcg_urandom (n : nat) (x : Z) : Py.bytes :=
  match n with
  | O => []
  | S m =>
      let x' := Z.land (x * 214013 + 2531011) 4294967295 in
      Z.land (Z.shiftr x' 16) 255 :: lcg_urandom m x'
  end.

Definition secret_of_seed (seed : Z) : secret :=
  let drawn := lcg_urandom 16 seed in
  Secret (le_word (firstn 8 drawn)) (le_word (skipn 8 drawn)).

End PyHash.

(** ** Values, exceptions and results *)

Inductive exn : Type :=
| KeyError (key : string)
| TypeError (msg : string)
| ImageError (msg : string)
| StorageError (msg : string)
| Exception (msg : string).

(** [str(e)]. *)
Definition str_of_exn (e : exn) : string :=
  match e with
  | KeyError key => "'" +:+ key +:+ "'"
  | TypeError msg | ImageError msg | StorageError msg | Exception msg => msg
  end.

Inductive result (A : Type) : Type :=
| Ok (a : A)
| Raise (e : exn).
Arguments Ok {A} a.
Arguments Raise {A} e.

Definition is_ok {A} (r : result A) : bool :=
  match r with Ok _ => true | Raise _ => false end.

Definition and_then {A B} (r : result A) (k : A -> result B) : result B :=
  match r with
  | Ok a => k a
  | Raise e => Raise e
  end.

Notation "x <~ r ;; k" := (and_then r (fun x => k))
  (at level 100, r at next level, right associativity).

(** Scalars held in the dictionaries the code builds. *)
Inductive scalar : Type :=
| SNone
| SBool (b : bool)
| SInt (n : Z)
| SStr (s : string).

(** [str(v)], as an f-string renders a field. *)
Definition str_of_scalar (v : scalar) : string :=
  match v with
  | SNone => "None"
  | SBool true => "True"
  | SBool false => "False"
  | SInt n => Py.str_of_int n
  | SStr s => s
  end.

(** Truth value of a scalar in a condition. *)
Definition truthy (v : scalar) : bool :=
  match v with
  | SNone => false
  | SBool b => b
  | SInt n => negb (n =? 0)
  | SStr s => negb (String.eqb s "")
  end.

(** ** The application object of [app.py] *)

Module App.

(** One entry of [st.session_state.human_verified_content]. *)
Record entry := Entry {
  hash : string;
  uri : string;
  type : Z;
  context : string;
  timestamp : string;
  status : string;
  vouches : Z
}.

(** The part of [st.session_state] the verification code reads and
    writes: the connectivity flag and the ledger, which is absent until
    the first local attestation. *)
Record session := Session {
  w3_connected : bool;
  human_verified_content : option (gmap string entry)
}.

Definition fresh (connected : bool) : session := Session connected None.

(** [content_hash in st.session_state.human_verified_content], guarded
    by the presence of the ledger. *)
Definition find (content_hash : string) (s : session) : option entry :=
  match human_verified_content s with
  | Some ledger => ledger !! content_hash
  | None => None
  end.

Definition placeholder_tx : string :=
  "0x" +:+ string_of_list_ascii (repeat "0"%char 64).

(** [MetaSignetApp.verify_human_content]; [now] is
    [datetime.now().isoformat()]. *)
Definition verify_human_content
    (content_hash post_uri : string) (creation_type : Z)
    (creation_context : string) (now : string) (s : session)
  : gmap string scalar * session :=
  if negb (w3_connected s) then
    let ledger := default ∅ (human_verified_content s) in
    let e := Entry content_hash post_uri creation_type creation_context
                   now "SELF_ATTESTED" 0 in
    ({[ "success" := SBool true;
        "message" := SStr "Content verified locally" ]},
     Session (w3_connected s) (Some (<[content_hash := e]> ledger)))
  else
    ({[ "success" := SBool true;
        "message" := SStr "Content verified on blockchain";
        "tx_hash" := SStr placeholder_tx ]}, s).

(** The in-place update of an entry by a vouch. *)
Definition bump (e : entry) : entry :=
  let n := vouches e + 1 in
  Entry (hash e) (uri e) (type e) (context e) (timestamp e)
        (if 3 <=? n then "COMMUNITY_VOUCHED" else status e) n.

(** [MetaSignetApp.vouch_for_content]. *)
Definition vouch_for_content (content_hash : string) (s : session)
  : gmap string scalar * session :=
  if negb (w3_connected s) then
    match human_verified_content s with
    | Some ledger =>
        match ledger !! content_hash with
        | Some e =>
            let e' := bump e in
            ({[ "success" := SBool true; "vouches" := SInt (vouches e') ]},
             Session (w3_connected s) (Some (<[content_hash := e']> ledger)))
        | None =>
            ({[ "success" := SBool false;
                "message" := SStr "Content not found" ]}, s)
        end
    | None =>
        ({[ "success" := SBool false;
            "message" := SStr "Content not found" ]}, s)
    end
  else
    ({[ "success" := SBool true;
        "message" := SStr "Vouched on blockchain";
        "tx_hash" := SStr placeholder_tx ]}, s).

(** Image handling is done by PIL and [imagehash]: [Image_open] decodes
    raw bytes (it raises on bytes that are no image) and [average_hash]
    is [str(imagehash.average_hash(img))]. *)
Section Fingerprint.
Variable pil_image : Type.
Variable Image_open : Py.bytes -> result pil_image.
Variable average_hash : pil_image -> string.

(** An element of [post_details["images"]]. *)
Inductive image_entry : Type :=
| Raw (data : Py.bytes)
| Decoded (img : pil_image).

(** The dictionary returned by [get_post_details]. *)
Record post_details := PostDetails {
  post_id : string;
  text : string;
  images : list image_entry;
  author : string;
  posted : string;
  post_uri : string
}.

Definition image_hash (img : image_entry) : result string :=
  match img with
  | Raw data =>
      match Image_open data with
      | Ok p => Ok (average_hash p)
      | Raise e => Raise e
      end
  | Decoded p => Ok (average_hash p)
  end.

(** The loop filling [image_hashes]; it stops at the first image that
    raises. *)
Fixpoint image_hashes (imgs : list image_entry) : result (list string) :=
  match imgs with
  | [] => Ok []
  | img :: rest =>
      match image_hash img with
      | Raise e => Raise e
      | Ok h =>
          match image_hashes rest with
          | Ok hs => Ok (h :: hs)
          | Raise e => Raise e
          end
      end
  end.

(** [MetaSignetApp.compute_content_hash], in a process whose string
    hashing key is [key]. *)
Definition compute_content_hash (key : PyHash.secret)
    (post : post_details) : result string :=
  let text_hash := Py.str_of_int (PyHash.hash_str key (text post)) in
  match image_hashes (images post) with
  | Ok hs => Ok (text_hash +:+ "_" +:+ Py.join "_" hs)
  | Raise e =>
      Raise (Exception ("Error computing content hash: " +:+ str_of_exn e))
  end.

End Fingerprint.

Arguments Raw {pil_image} data.
Arguments Decoded {pil_image} img.
Arguments PostDetails {pil_image} post_id text images author posted post_uri.
Arguments post_id {pil_image} p.
Arguments text {pil_image} p.
Arguments images {pil_image} p.
Arguments author {pil_image} p.
Arguments posted {pil_image} p.
Arguments post_uri {pil_image} p.
Arguments image_hash {pil_image} Image_open average_hash img.
Arguments image_hashes {pil_image} Image_open average_hash imgs.
Arguments compute_content_hash {pil_image} Image_open average_hash key post.

End App.

(** ** The storage layer of [database.py] *)

Module Database.

(** A row of the table [verification]. *)
Record row := Row {
  content_hash : string;
  content_uri : string;
  user_id : string;
  creation_type : Z;
  creation_context : string;
  status : Z;
  vouches : Z;
  created_at : string
}.

(** What the storage code acts on: the hosted table, the outcome of the
    coming requests to the service ([Some msg]: the request raises with
    message [msg]; [None], or no entry left: the request is served), the
    messages shown with [st.error], and the clock of the service. *)
Record world := World {
  table : gmap string row;
  faults : list (option string);
  shown : list string;
  now : string
}.

(** Computations over the world that may raise. The world reached
    before an exception is kept, as in Python. *)
Definition M (A : Type) : Type := world -> result A * world.

Definition ret {A} (a : A) : M A := fun w => (Ok a, w).

Definition bind {A B} (c : M A) (k : A -> M B) : M B :=
  fun w =>
    match c w with
    | (Ok a, w') => k a w'
    | (Raise e, w') => (Raise e, w')
    end.

(** [try: body  except Exception as e: handler e]. *)
Definition try_except {A} (body : M A) (handler : exn -> M A) : M A :=
  fun w =>
    match body w with
    | (Ok a, w') => (Ok a, w')
    | (Raise e, w') => handler e w'
    end.

Notation "x <- c ;; k" := (bind c (fun x => k))
  (at level 100, c at next level, right associativity).

(** [st.error(msg)]. *)
Definition st_error (msg : string) : M unit :=
  fun w => (Ok tt, World (table w) (faults w) (shown w ++ [msg]) (now w)).

(** The request reaches the service, or raises. *)
Definition reach : M unit :=
  fun w =>
    match faults w with
    | [] => (Ok tt, w)
    | None :: rest => (Ok tt, World (table w) rest (shown w) (now w))
    | Some msg :: rest =>
        (Raise (StorageError msg), World (table w) rest (shown w) (now w))
    end.

(** Modelled from the spec: the hosted table, which is not part of the
    sources. [content_hash] is its primary key, so inserting a second
    row with the same key raises; a new row gets the column defaults
    [vouches = 0] and [created_at = now], and the status of a new
    record, [1] (self-attested). *)
Definition insert (h uri uid : string) (ctype : Z) (ctx : string)
  : M (list row) :=
  _ <- reach ;;
  fun w =>
    match table w !! h with
    | Some _ =>
        (Raise (StorageError
                  "duplicate key value violates unique constraint"), w)
    | None =>
        let r := Row h uri uid ctype ctx 1 0 (now w) in
        (Ok [r], World (<[h := r]> (table w)) (faults w) (shown w) (now w))
    end.

(** [select("*").eq("content_hash", h)]. *)
Definition select_eq (h : string) : M (list row) :=
  _ <- reach ;;
  fun w => (Ok (option_list (table w !! h)), w).

(** [update({"vouches": n, "status": st}).eq("content_hash", h)]; the
    response holds the rows changed. *)
Definition update_eq (h : string) (n st : Z) : M (list row) :=
  _ <- reach ;;
  fun w =>
    match table w !! h with
    | Some r =>
        let r' := Row (content_hash r) (content_uri r) (user_id r)
                      (creation_type r) (creation_context r) st n
                      (created_at r) in
        (Ok [r'], World (<[h := r']> (table w)) (faults w) (shown w) (now w))
    | None => (Ok [], w)
    end.

(** [store_verification]. *)
Definition store_verification (h uri uid : string) (ctype : Z)
    (ctx : string) : M (option row) :=
  try_except
    (data <- insert h uri uid ctype ctx ;;
     ret (head data))
    (fun e =>
       _ <- st_error ("Database error: " +:+ str_of_exn e) ;;
       ret None).

(** [get_verification]. *)
Definition get_verification (h : string) : M (option row) :=
  try_except
    (data <- select_eq h ;;
     ret (head data))
    (fun e =>
       _ <- st_error ("Database error: " +:+ str_of_exn e) ;;
       ret None).

(** [add_vouch]. *)
Definition add_vouch (h voucher_id : string) : M (option row) :=
  try_except
    (verification <- get_verification h ;;
     match verification with
     | None => ret None
     | Some v =>
         let new_count := vouches v + 1 in
         let st := if 3 <=? new_count then 2 else 1 in
         data <- update_eq h new_count st ;;
         ret (head data)
     end)
    (fun e =>
       _ <- st_error ("Database error: " +:+ str_of_exn e) ;;
       ret None).

End Database.

(** ** The verifier of [verification.py] *)

Module Verifier.
Import Database.

(** A value of a result dictionary: a scalar or a stored row. *)
Inductive value : Type :=
| Scalar (s : scalar)
| Stored (r : row).

Definition VBool (b : bool) : value := Scalar (SBool b).
Definition VStr (s : string) : value := Scalar (SStr s).
Definition VInt (n : Z) : value := Scalar (SInt n).

(** [ContentVerifier.compute_text_hash]. *)
Definition compute_text_hash (text : string) : string :=
  SHA256.hexdigest (Py.encode_utf8 text).

(** [ContentVerifier.compute_content_hash]; [post_data] holds the
    string fields of the post. *)
Definition compute_content_hash (post_data : gmap string string) : string :=
  let text := default "" (post_data !! "text") in
  let post_id := default "" (post_data !! "post_id") in
  let author := default "" (post_data !! "author_handle") in
  compute_text_hash (text +:+ "|" +:+ post_id +:+ "|" +:+ author).

(** [ContentVerifier.verify_human_content]. *)
Definition verify_human_content (h uri uid : string) (ctype : Z)
    (ctx : string) : M (gmap string value) :=
  try_except
    (stored <- store_verification h uri uid ctype ctx ;;
     match stored with
     | Some r =>
         ret {[ "success" := VBool true;
                "message" := VStr "Content verified successfully";
                "verification" := Stored r ]}
     | None =>
         ret {[ "success" := VBool false;
                "message" := VStr "Failed to store verification" ]}
     end)
    (fun e =>
       ret {[ "success" := VBool false;
              "message" := VStr ("Verification error: " +:+ str_of_exn e) ]}).

Definition status_map (st : Z) : string :=
  match st with
  | 1 => "Self-attested"
  | 2 => "Community-vouched"
  | _ => "Unknown"
  end.

Definition creation_type_map (ctype : Z) : string :=
  match ctype with
  | 1 => "Human-created"
  | 2 => "AI-assisted"
  | 3 => "AI-generated"
  | _ => "Unknown"
  end.

(** The dictionary built for a row that was found. *)
Definition status_of_row (v : row) : gmap string scalar :=
  {[ "exists" := SBool true;
     "verified" := SBool true;
     "creator" := SStr (user_id v);
     "timestamp" := SStr (created_at v);
     "creation_type" := SStr (creation_type_map (creation_type v));
     "status" := SStr (status_map (status v));
     "context" := SStr (creation_context v);
     "vouches" := SInt (vouches v);
     "uri" := SStr (content_uri v) ]}.

(** [ContentVerifier.check_verification_status]. *)
Definition check_verification_status (h : string)
  : M (gmap string scalar) :=
  verification <- get_verification h ;;
  match verification with
  | Some v => ret (status_of_row v)
  | None => ret {[ "exists" := SBool false; "verified" := SBool false ]}
  end.

(** [ContentVerifier.vouch_for_content]. *)
Definition vouch_for_content (h voucher_id : string)
  : M (gmap string value) :=
  try_except
    (verification <- get_verification h ;;
     match verification with
     | None =>
         ret {[ "success" := VBool false;
                "message" := VStr "Content not found" ]}
     | Some v =>
         if String.eqb (user_id v) voucher_id then
           ret {[ "success" := VBool false;
                  "message" := VStr "Cannot vouch for your own content" ]}
         else
           added <- add_vouch h voucher_id ;;
           match added with
           | Some r =>
               ret {[ "success" := VBool true;
                      "message" := VStr "Successfully vouched for content";
                      "vouches" := VInt (vouches r) ]}
           | None =>
               ret {[ "success" := VBool false;
                      "message" := VStr "Failed to add vouch" ]}
           end
     end)
    (fun e =>
       ret {[ "success" := VBool false;
              "message" := VStr ("Vouching error: " +:+ str_of_exn e) ]}).

(** [verification[key]]. *)
Definition subscript (verification : gmap string scalar) (key : string)
  : result scalar :=
  match verification !! key with
  | Some v => Ok v
  | None => Raise (KeyError key)
  end.

(** [v[:16]]: only a string can be sliced. *)
Definition first16 (v : scalar) : result string :=
  match v with
  | SStr s => Ok (Py.prefix 16 s)
  | SNone => Raise (TypeError "'NoneType' object is not subscriptable")
  | SBool _ => Raise (TypeError "'bool' object is not subscriptable")
  | SInt _ => Raise (TypeError "'int' object is not subscriptable")
  end.

Definition dq : string := String (ascii_of_nat 34) EmptyString.
Definition nl : string := String (ascii_of_nat 10) EmptyString.

Definition indent (n : nat) (s : string) : string :=
  string_of_list_ascii (repeat " "%char n) +:+ s.

Definition quoted (s : string) : string := dq +:+ s +:+ dq.

Definition styled (tag style : string) : string :=
  "<" +:+ tag +:+ " style=" +:+ quoted style +:+ ">".

(** The text of the certificate, with its fields filled in. *)
Definition certificate_html
    (short creator ctype level count date link : string) : string :=
  nl +:+ Py.join nl
    [ indent 8 (styled "div" "border: 2px solid #1E40AF; border-radius: 8px; padding: 20px; max-width: 600px; font-family: Arial, sans-serif;");
      indent 12 (styled "div" "text-align: center; margin-bottom: 20px;");
      indent 16 (styled "h2" "color: #1E40AF; margin: 0;" +:+ "MetaSignet</h2>");
      indent 16 (styled "p" "color: #666; margin: 5px 0;" +:+ "Human Content Verification</p>");
      indent 12 "</div>";
      indent 12 "";
      indent 12 (styled "div" "display: flex; margin-bottom: 20px;");
      indent 16 (styled "div" "flex: 1;");
      indent 20 ("<p><strong>Content Hash:</strong><br/>" +:+ short +:+ "...</p>");
      indent 20 ("<p><strong>Creator:</strong><br/>" +:+ creator +:+ "</p>");
      indent 20 ("<p><strong>Verified As:</strong><br/>" +:+ ctype +:+ "</p>");
      indent 16 "</div>";
      indent 16 (styled "div" "flex: 1;");
      indent 20 ("<p><strong>Verification Level:</strong><br/>" +:+ level +:+ "</p>");
      indent 20 ("<p><strong>Vouches:</strong><br/>" +:+ count +:+ "</p>");
      indent 20 ("<p><strong>Verified On:</strong><br/>" +:+ date +:+ "</p>");
      indent 16 "</div>";
      indent 12 "</div>";
      indent 12 "";
      indent 12 (styled "div" "margin-bottom: 20px;");
      indent 16 "<p><strong>Original Content:</strong><br/>";
      indent 16 ("<a href=" +:+ quoted link +:+ " target=" +:+ quoted "_blank"
                 +:+ " style=" +:+ quoted "color: #1E40AF;" +:+ ">"
                 +:+ link +:+ "</a></p>");
      indent 12 "</div>";
      indent 12 "";
      indent 12 (styled "div" "text-align: center; margin-top: 20px; padding-top: 20px; border-top: 1px solid #ddd;");
      indent 16 (styled "p" "color: #666; margin: 0; font-size: 14px;"
                 +:+ "Verify at: metasignet.app/verify/" +:+ short +:+ "</p>");
      indent 12 "</div>";
      indent 8 "</div>";
      indent 8 "" ].

Section Certificate.

(** [strftime_iso t] is
    [datetime.fromisoformat(t).strftime('%Y-%m-%d %H:%M:%S')], and
    [None] when [fromisoformat] raises. *)
Variable strftime_iso : string -> option string.

(** The date shown: the timestamp reformatted, or as it is when it
    cannot be parsed. *)
Definition formatted_date (verification : gmap string scalar)
  : result scalar :=
  match verification !! "timestamp" with
  | Some (SStr t) => Ok (SStr (default t (strftime_iso t)))
  | Some v => Ok v
  | None => Raise (KeyError "timestamp")
  end.

(** [ContentVerifier.generate_certificate]: [None] for a record that
    does not exist, else the certificate; the fields are read in the
    order of the template. *)
Definition generate_certificate (verification : gmap string scalar)
    (include_image : bool) : result (option string) :=
  if (size verification =? 0)%nat
     || negb (truthy (default (SBool false) (verification !! "exists")))
  then Ok None
  else
    date <~ formatted_date verification ;;
    fp <~ subscript verification "content_hash" ;;
    short <~ first16 fp ;;
    creator <~ subscript verification "creator" ;;
    ctype <~ subscript verification "creation_type" ;;
    level <~ subscript verification "status" ;;
    count <~ subscript verification "vouches" ;;
    link <~ subscript verification "uri" ;;
    Ok (Some (certificate_html short (str_of_scalar creator)
                (str_of_scalar ctype) (str_of_scalar level)
                (str_of_scalar count) (str_of_scalar date)
                (str_of_scalar link))).

End Certificate.

End Verifier.

(** ** Vocabulary of the statements *)

(** The coming request to the storage service is served. *)
Definition served (w : Database.world) : bool :=
  match Database.faults w with
  | Some _ :: _ => false
  | _ => true
  end.

(** The world once a served request is over. *)
Definition after_request (w : Database.world) : Database.world :=
  Database.World (Database.table w) (tail (Database.faults w))
                 (Database.shown w) (Database.now w).

(** The world once a request failed with [msg] and the storage layer
    displayed the error. *)
Definition after_fault (w : Database.world) (msg : string) : Database.world :=
  Database.World (Database.table w) (tail (Database.faults w))
                 (Database.shown w ++ ["Database error: " +:+ msg])
                 (Database.now w).

(** The row a vouch writes over [r]. *)
Definition vouched (r : Database.row) : Database.row :=
  Database.Row (Database.content_hash r) (Database.content_uri r)
               (Database.user_id r) (Database.creation_type r)
               (Database.creation_context r)
               (if 3 <=? Database.vouches r + 1 then 2 else 1)
               (Database.vouches r + 1) (Database.created_at r).

(** The row a first attestation stores. *)
Definition attested (h uri uid : string) (ctype : Z) (ctx now : string)
  : Database.row :=
  Database.Row h uri uid ctype ctx 1 0 now.

(** The status a record must have for its vouch count, in either
    ledger. *)
Definition entry_consistent (e : App.entry) : Prop :=
  App.status e
  = if 3 <=? App.vouches e then "COMMUNITY_VOUCHED" else "SELF_ATTESTED".

Definition row_consistent (r : Database.row) : Prop :=
  Database.status r = if 3 <=? Database.vouches r then 2 else 1.

(** The vouch count and the status recorded for a fingerprint, in the
    session ledger and in the stored one. *)
Definition local_seen (h : string) (s : App.session) : option (Z * string) :=
  (fun e => (App.vouches e, App.status e)) <$> App.find h s.

Definition stored_seen (h : string) (w : Database.world) : option (Z * Z) :=
  (fun r => (Database.vouches r, Database.status r))
    <$> Database.table w !! h.

(** An operation on the session ledger of [app.py]. *)
Inductive app_op : Type :=
| AppAttest (h uri : string) (ctype : Z) (ctx now : string)
| AppVouch (h : string).

Definition app_step (s : App.session) (op : app_op) : App.session :=
  match op with
  | AppAttest h uri ctype ctx now =>
      (App.verify_human_content h uri ctype ctx now s).2
  | AppVouch h => (App.vouch_for_content h s).2
  end.

Definition app_run (ops : list app_op) (s : App.session) : App.session :=
  fold_left app_step ops s.

(** An operation on the stored ledger, through the verifier. *)
Inductive db_op : Type :=
| DbAttest (h uri uid : string) (ctype : Z) (ctx : string)
| DbVouch (h voucher : string).

Definition db_step (w : Database.world) (op : db_op) : Database.world :=
  match op with
  | DbAttest h uri uid ctype ctx =>
      (Verifier.verify_human_content h uri uid ctype ctx w).2
  | DbVouch h voucher => (Verifier.vouch_for_content h voucher w).2
  end.

Definition db_run (ops : list db_op) (w : Database.world) : Database.world :=
  fold_left db_step ops w.

(** The result dictionaries of the verifier. *)
Definition store_failed : gmap string Verifier.value :=
  {[ "success" := Verifier.VBool false;
     "message" := Verifier.VStr "Failed to store verification" ]}.

Definition not_found : gmap string Verifier.value :=
  {[ "success" := Verifier.VBool false;
     "message" := Verifier.VStr "Content not found" ]}.

Definition self_vouch : gmap string Verifier.value :=
  {[ "success" := Verifier.VBool false;
     "message" := Verifier.VStr "Cannot vouch for your own content" ]}.

Definition vouch_failed : gmap string Verifier.value :=
  {[ "success" := Verifier.VBool false;
     "message" := Verifier.VStr "Failed to add vouch" ]}.

Definition vouch_done (count : Z) : gmap string Verifier.value :=
  {[ "success" := Verifier.VBool true;
     "message" := Verifier.VStr "Successfully vouched for content";
     "vouches" := Verifier.VInt count ]}.

Definition local_vouch_done (count : Z) : gmap string scalar :=
  {[ "success" := SBool true; "vouches" := SInt count ]}.

Definition no_record : gmap string scalar :=
  {[ "exists" := SBool false; "verified" := SBool false ]}.

Definition attest_done (r : Database.row) : gmap string Verifier.value :=
  {[ "success" := Verifier.VBool true;
     "message" := Verifier.VStr "Content verified successfully";
     "verification" := Verifier.Stored r ]}.

Definition local_vouch_on_chain : gmap string scalar :=
  {[ "success" := SBool true;
     "message" := SStr "Vouched on blockchain";
     "tx_hash" := SStr App.placeholder_tx ]}.

(** What a result dictionary of the verifier tells its caller: that the
    operation was done, or that it was not, with a message. *)
Definition reports_success (d : gmap string Verifier.value) : Prop :=
  d !! "success" = Some (Verifier.VBool true).

Definition reports_failure (d : gmap string Verifier.value) : Prop :=
  d !! "success" = Some (Verifier.VBool false) /\
  exists m, d !! "message" = Some (Verifier.VStr m).

(** None of the coming [k] requests to the storage service fails. *)
Definition requests_served (k : nat) (w : Database.world) : bool :=
  forallb (fun outcome => match outcome with Some _ => false | None => true end)
          (take k (Database.faults w)).

(** The message of the table for a key that is already there. *)
Definition duplicate_key : string :=
  "duplicate key value violates unique constraint".

(** The string hashing keys of two interpreter runs: the one started with
    [PYTHONHASHSEED=1] and the one started with [PYTHONHASHSEED=2]. *)
Definition run_one : PyHash.secret := PyHash.secret_of_seed 1.

Definition run_two : PyHash.secret := PyHash.secret_of_seed 2.

(** * Properties *)

(** ** Facts about the storage layer *)

Section StorageFacts.
Import Database.

Lemma head_option_list {A} (o : option A) : head (option_list o) = o.
Proof. destruct o; reflexivity. Qed.

Lemma get_verification_served h w :
  served w = true ->
  get_verification h w = (Ok (table w !! h), after_request w).
Proof.
  destruct w as [t f s n]. unfold served, after_request. cbn.
  destruct f as [|[msg|] f]; cbn; intros Hs; try discriminate;
    unfold get_verification, try_except, select_eq, bind, reach, ret; cbn;
    rewrite head_option_list; reflexivity.
Qed.

Lemma get_verification_fault h w msg rest :
  faults w = Some msg :: rest ->
  get_verification h w = (Ok None, after_fault w msg).
Proof.
  destruct w as [t f s n]. cbn. intros ->. reflexivity.
Qed.

Lemma store_verification_fault h uri uid ctype ctx w msg rest :
  faults w = Some msg :: rest ->
  store_verification h uri uid ctype ctx w = (Ok None, after_fault w msg).
Proof.
  destruct w as [t f s n]. cbn. intros ->. reflexivity.
Qed.

(** A storage function either serves the request or displays the error:
    it never raises, and it leaves the table alone unless it says so. *)
Lemma get_verification_total h w :
  exists w',
    get_verification h w
    = (Ok (if served w then table w !! h else None), w')
    /\ table w' = table w.
Proof.
  destruct (served w) eqn:Hs.
  - rewrite get_verification_served by assumption.
    eexists; split; reflexivity.
  - destruct w as [t f s n]. destruct f as [|[msg|] f]; try discriminate.
    eexists; split; reflexivity.
Qed.

Lemma store_verification_cases h uri uid ctype ctx w :
  (exists w', store_verification h uri uid ctype ctx w = (Ok None, w')
              /\ table w' = table w) \/
  (table w !! h = None /\ served w = true /\
   store_verification h uri uid ctype ctx w =
     (Ok (Some (attested h uri uid ctype ctx (now w))),
      World (<[h := attested h uri uid ctype ctx (now w)]> (table w))
            (tail (faults w)) (shown w) (now w))).
Proof.
  destruct w as [t f s n].
  destruct f as [|[msg|] f]; cbn;
    unfold store_verification, try_except, insert, bind, reach, ret, st_error;
    cbn; try (left; eexists; split; reflexivity);
    destruct (t !! h) eqn:Ht; cbn;
    try (left; eexists; split; reflexivity);
    right; repeat split; reflexivity.
Qed.

Lemma add_vouch_cases h voucher w :
  (exists w', add_vouch h voucher w = (Ok None, w') /\ table w' = table w) \/
  (exists r w', table w !! h = Some r /\
                add_vouch h voucher w = (Ok (Some (vouched r)), w') /\
                table w' = <[h := vouched r]> (table w)).
Proof.
  destruct w as [t f s n].
  unfold add_vouch, try_except, bind.
  destruct (get_verification_total h (World t f s n)) as (w1 & -> & Ht1).
  destruct w1 as [t1 f1 s1 n1]. cbn in Ht1. subst t1.
  destruct (served (World t f s n)); cbn;
    [ destruct (t !! h) as [r|] eqn:Hr | ]; cbn;
    try (left; eexists; split; reflexivity).
  unfold update_eq, bind, reach, ret. cbn.
  destruct f1 as [|[msg|] f1]; cbn; rewrite ?Hr; cbn;
    try (left; eexists; split; reflexivity);
    right; exists r; eexists; repeat split; reflexivity.
Qed.

End StorageFacts.

(** ** Attesting twice (C1) *)

Lemma verify_human_content_unfold h uri uid ctype ctx w :
  Verifier.verify_human_content h uri uid ctype ctx w =
  match Database.store_verification h uri uid ctype ctx w with
  | (Ok (Some r), w') =>
      (Ok {[ "success" := Verifier.VBool true;
             "message" := Verifier.VStr "Content verified successfully";
             "verification" := Verifier.Stored r ]}, w')
  | (Ok None, w') => (Ok store_failed, w')
  | (Raise e, w') =>
      (Ok {[ "success" := Verifier.VBool false;
             "message" :=
               Verifier.VStr ("Verification error: " +:+ str_of_exn e) ]}, w')
  end.
Proof.
  unfold Verifier.verify_human_content, Database.try_except, Database.bind.
  destruct (Database.store_verification h uri uid ctype ctx w)
    as [[[r|]|e] w']; reflexivity.
Qed.

(** C1, counterexample. In the session ledger a second attestation of the
    fingerprint [fp] succeeds, and the entry then holds the fields of the
    second call instead of those of the first. *)
Example reattestation_overwrites_locally :
  let first :=
    App.verify_human_content "fp" "uri-1" 1 "first" "t1" (App.fresh false) in
  let second :=
    App.verify_human_content "fp" "uri-2" 3 "second" "t2" first.2 in
  first.1 !! "success" = Some (SBool true) /\
  App.find "fp" first.2
  = Some (App.Entry "fp" "uri-1" 1 "first" "t1" "SELF_ATTESTED" 0) /\
  second.1 !! "success" = Some (SBool true) /\
  App.find "fp" second.2
  = Some (App.Entry "fp" "uri-2" 3 "second" "t2" "SELF_ATTESTED" 0).
Proof. vm_compute. repeat split. Qed.

(** C1, as amended. After a first successful attestation of a fingerprint
    in the stored ledger, a second attestation of it is rejected: it
    returns the failure dictionary of the storage layer (there is no
    error kind of its own for it) and the stored row keeps the fields of
    the first call. In the session ledger the operation is an upsert: an
    attestation always succeeds and the entry holds the fields of the
    latest call, with no vouch. *)
Theorem second_attestation :
  forall (s : App.session) (w : Database.world)
         (h uri1 uid1 ctx1 uri2 uid2 ctx2 now2 : string) (ctype1 ctype2 : Z)
         (d1 : gmap string Verifier.value),
    App.w3_connected s = false ->
    (Verifier.verify_human_content h uri1 uid1 ctype1 ctx1 w).1 = Ok d1 ->
    d1 !! "success" = Some (Verifier.VBool true) ->
    let w1 := (Verifier.verify_human_content h uri1 uid1 ctype1 ctx1 w).2 in
    let again := Verifier.verify_human_content h uri2 uid2 ctype2 ctx2 w1 in
    let local := App.verify_human_content h uri2 ctype2 ctx2 now2 s in
    Database.table w1 !! h
    = Some (attested h uri1 uid1 ctype1 ctx1 (Database.now w)) /\
    again.1 = Ok store_failed /\
    Database.table again.2 = Database.table w1 /\
    local.1 !! "success" = Some (SBool true) /\
    App.find h local.2
    = Some (App.Entry h uri2 ctype2 ctx2 now2 "SELF_ATTESTED" 0).
Proof.
  intros s w h uri1 uid1 ctx1 uri2 uid2 ctx2 now2 ctype1 ctype2 d1
         Hlocal Hfirst Hsuccess w1 again local.
  assert (Hw1 : Database.table w1 !! h
                = Some (attested h uri1 uid1 ctype1 ctx1 (Database.now w))).
  { subst w1. revert Hfirst. rewrite verify_human_content_unfold.
    destruct (store_verification_cases h uri1 uid1 ctype1 ctx1 w)
      as [(w' & -> & _) | (_ & _ & ->)]; cbn.
    - intros [= <-]. vm_compute in Hsuccess. discriminate.
    - intros _. apply lookup_insert_eq. }
  repeat split.
  - exact Hw1.
  - subst again. rewrite verify_human_content_unfold.
    destruct (store_verification_cases h uri2 uid2 ctype2 ctx2 w1)
      as [(w' & -> & _) | (Hnone & _)]; [reflexivity | congruence].
  - subst again. rewrite verify_human_content_unfold.
    destruct (store_verification_cases h uri2 uid2 ctype2 ctx2 w1)
      as [(w' & -> & Ht) | (Hnone & _)]; [exact Ht | congruence].
  - subst local. unfold App.verify_human_content. rewrite Hlocal. reflexivity.
  - subst local. unfold App.verify_human_content, App.find.
    rewrite Hlocal. cbn. apply lookup_insert_eq.
Qed.

Lemma second_attestation_witness :
  let s := App.fresh false in
  let w := Database.World ∅ [] [] "2024-05-01T10:00:00" in
  let w1 := (Verifier.verify_human_content "fp" "uri-1" "alice" 1 "first" w).2 in
  let again := Verifier.verify_human_content "fp" "uri-2" "bob" 3 "second" w1 in
  let local := App.verify_human_content "fp" "uri-2" 3 "second" "t2" s in
  Database.table w1 !! "fp"
  = Some (attested "fp" "uri-1" "alice" 1 "first" "2024-05-01T10:00:00") /\
  again.1 = Ok store_failed /\
  Database.table again.2 = Database.table w1 /\
  local.1 !! "success" = Some (SBool true) /\
  App.find "fp" local.2
  = Some (App.Entry "fp" "uri-2" 3 "second" "t2" "SELF_ATTESTED" 0).
Proof.
  apply (second_attestation (App.fresh false)
           (Database.World ∅ [] [] "2024-05-01T10:00:00")
           "fp" "uri-1" "alice" "first" "uri-2" "bob" "second" "t2" 1 3
           {[ "success" := Verifier.VBool true;
              "message" := Verifier.VStr "Content verified successfully";
              "verification" :=
                Verifier.Stored (attested "fp" "uri-1" "alice" 1 "first"
                                          "2024-05-01T10:00:00") ]});
    reflexivity.
Defined.

(** ** Shape of the fingerprints *)

Lemma uint_digits_no_separator d :
  Py.occurs "_" (NilEmpty.string_of_uint d) = false.
Proof. induction d; cbn; auto. Qed.

Lemma str_of_int_no_separator n : Py.occurs "_" (Py.str_of_int n) = false.
Proof.
  unfold Py.str_of_int, NilZero.string_of_int, NilZero.string_of_uint.
  destruct (Z.to_int n) as [d|d]; destruct d; cbn;
    auto using uint_digits_no_separator.
Qed.

Lemma hex_digit_no_separator d : Ascii.eqb "_" (Py.hex_digit d) = false.
Proof.
  unfold Py.hex_digit. destruct d as [|p|p]; try reflexivity.
  do 5 (try (destruct p as [p|p|]; try reflexivity)).
Qed.

Lemma hex_of_bytes_no_separator bs : Py.occurs "_" (Py.hex_of_bytes bs) = false.
Proof.
  induction bs as [|b bs IH]; [reflexivity|].
  cbn [Py.hex_of_bytes Py.occurs].
  rewrite !hex_digit_no_separator, IH. reflexivity.
Qed.

Lemma hex_of_bytes_length bs :
  String.length (Py.hex_of_bytes bs) = (2 * length bs)%nat.
Proof. induction bs as [|b bs IH]; cbn in *; [reflexivity | lia]. Qed.

Lemma be_bytes_length n x : length (SHA256.be_bytes n x) = n.
Proof.
  revert x. induction n as [|n IH]; intros x; [reflexivity|].
  cbn. rewrite length_app, IH. cbn. lia.
Qed.

Lemma digest_length msg : length (SHA256.digest msg) = 32%nat.
Proof.
  unfold SHA256.digest. cbn [flat_map].
  rewrite !length_app, !be_bytes_length. reflexivity.
Qed.

Lemma hexdigest_shape msg :
  String.length (SHA256.hexdigest msg) = 64%nat
  /\ Py.occurs "_" (SHA256.hexdigest msg) = false.
Proof.
  unfold SHA256.hexdigest. split.
  - rewrite hex_of_bytes_length, digest_length. reflexivity.
  - apply hex_of_bytes_no_separator.
Qed.

(** ** Reproducibility of the fingerprint (C2) *)

(** C2, the code at the failing input. The post with text [hello] and no
    image gets one fingerprint in an interpreter run whose string hashing
    key is [run_one] and another one in a run whose key is [run_two]:
    the key of the process feeds the fingerprint. *)
Theorem fingerprint_differs_between_runs :
  forall (pil_image : Type) (Image_open : Py.bytes -> result pil_image)
         (average_hash : pil_image -> string),
    let post := App.PostDetails "3k" "hello" [] "alice" "t" "u" in
    App.compute_content_hash Image_open average_hash run_one post
    = Ok "-1712148659304476210_" /\
    App.compute_content_hash Image_open average_hash run_two post
    = Ok "-2276782357261739453_".
Proof. intros. split; vm_compute; reflexivity. Qed.

(** ** What the fingerprint is computed from (C3) *)

(** C3, counterexample. Two posts with the same text and different post
    identifiers get different fingerprints from the verifier. *)
Example post_id_feeds_verifier_fingerprint :
  let a : gmap string string :=
    {[ "text" := "hello"; "post_id" := "3k"; "author_handle" := "alice" ]} in
  let b : gmap string string :=
    {[ "text" := "hello"; "post_id" := "3l"; "author_handle" := "alice" ]} in
  a !! "text" = b !! "text" /\
  Verifier.compute_content_hash a <> Verifier.compute_content_hash b.
Proof.
  split; [reflexivity|]. intros H. vm_compute in H. discriminate.
Qed.

(** C3, as amended. Within one interpreter run the fingerprint of the
    application is a function of the text and the images of the post and
    of nothing else in it; the fingerprint of the verifier is a function
    of the text, the post identifier and the author handle of the post
    (it reads no image). *)
Theorem fingerprint_inputs :
  forall (pil_image : Type) (Image_open : Py.bytes -> result pil_image)
         (average_hash : pil_image -> string) (key : PyHash.secret)
         (p q : App.post_details pil_image) (a b : gmap string string),
    App.text p = App.text q ->
    App.images p = App.images q ->
    a !! "text" = b !! "text" ->
    a !! "post_id" = b !! "post_id" ->
    a !! "author_handle" = b !! "author_handle" ->
    App.compute_content_hash Image_open average_hash key p
    = App.compute_content_hash Image_open average_hash key q /\
    Verifier.compute_content_hash a = Verifier.compute_content_hash b.
Proof.
  intros pil_image Image_open average_hash key p q a b Ht Hi Hat Hap Haa.
  split.
  - unfold App.compute_content_hash. rewrite Ht, Hi. reflexivity.
  - unfold Verifier.compute_content_hash. rewrite Hat, Hap, Haa. reflexivity.
Qed.

Lemma fingerprint_inputs_witness :
  let p := App.PostDetails "3k" "hello" [App.Decoded tt] "alice" "t1" "u1" in
  let q := App.PostDetails "9z" "hello" [App.Decoded tt] "bob" "t2" "u2" in
  let a : gmap string string :=
    {[ "text" := "hello"; "post_id" := "3k"; "author_handle" := "alice";
       "uri" := "u1" ]} in
  let b : gmap string string :=
    {[ "text" := "hello"; "post_id" := "3k"; "author_handle" := "alice";
       "uri" := "u2"; "timestamp" := "t2" ]} in
  App.compute_content_hash (fun _ => Ok tt) (fun _ => "ffffffffffffffff")
                           run_one p
  = App.compute_content_hash (fun _ => Ok tt) (fun _ => "ffffffffffffffff")
                             run_one q /\
  Verifier.compute_content_hash a = Verifier.compute_content_hash b.
Proof.
  apply (fingerprint_inputs unit (fun _ => Ok tt)
           (fun _ => "ffffffffffffffff") run_one); reflexivity.
Defined.

(** ** The separator of the fingerprint (C8) *)

(** C8, counterexample. The fingerprint the verifier gives the post with
    text [hello] and no image is one digest, without separator; the hash
    of the text is not even its beginning. *)
Example verifier_fingerprint_has_no_segments :
  let post : gmap string string := {[ "text" := "hello" ]} in
  Py.occurs "_" (Verifier.compute_content_hash post) = false /\
  ~ exists rest,
      Verifier.compute_content_hash post
      = Verifier.compute_text_hash "hello" +:+ rest.
Proof.
  split; [vm_compute; reflexivity|].
  intros [rest H]. vm_compute in H. discriminate.
Qed.

(** C8, as amended. Within one interpreter run, the fingerprint the
    application gives a text with no image is the hash of the text and
    the separator, with an empty image part, and the one it gives the
    same text with one image is that same beginning followed by the hash
    of the image; the hash of the text holds no separator, so the first
    separator ends it. The fingerprint of the verifier is a digest of 64
    hexadecimal digits with no separator and no image part. *)
Theorem separator_stability :
  forall (pil_image : Type) (Image_open : Py.bytes -> result pil_image)
         (average_hash : pil_image -> string) (key : PyHash.secret)
         (pid txt who time link : string) (img : App.image_entry pil_image)
         (h : string) (post_data : gmap string string),
    App.image_hash Image_open average_hash img = Ok h ->
    let text_hash := Py.str_of_int (PyHash.hash_str key txt) in
    App.compute_content_hash Image_open average_hash key
      (App.PostDetails pid txt [] who time link)
    = Ok (text_hash +:+ "_" +:+ "") /\
    App.compute_content_hash Image_open average_hash key
      (App.PostDetails pid txt [img] who time link)
    = Ok (text_hash +:+ "_" +:+ h) /\
    Py.occurs "_" text_hash = false /\
    String.length (Verifier.compute_content_hash post_data) = 64%nat /\
    Py.occurs "_" (Verifier.compute_content_hash post_data) = false.
Proof.
  intros pil_image Image_open average_hash key pid txt who time link img h
         post_data Himg text_hash.
  split; [reflexivity|].
  split; [unfold App.compute_content_hash; cbn; rewrite Himg; reflexivity|].
  split; [apply str_of_int_no_separator|].
  apply hexdigest_shape.
Qed.

Lemma separator_stability_witness :
  let open : Py.bytes -> result unit := fun _ => Raise (ImageError "no image") in
  let ahash : unit -> string := fun _ => "ffffffffffffffff" in
  App.compute_content_hash open ahash run_one
    (App.PostDetails "3k" "hello" [] "alice" "t" "u")
  = Ok ("-1712148659304476210" +:+ "_" +:+ "") /\
  App.compute_content_hash open ahash run_one
    (App.PostDetails "3k" "hello" [App.Decoded tt] "alice" "t" "u")
  = Ok ("-1712148659304476210" +:+ "_" +:+ "ffffffffffffffff") /\
  Py.occurs "_" "-1712148659304476210" = false /\
  String.length (Verifier.compute_content_hash {[ "text" := "hello" ]})
  = 64%nat /\
  Py.occurs "_" (Verifier.compute_content_hash {[ "text" := "hello" ]}) = false.
Proof.
  apply (separator_stability unit (fun _ => Raise (ImageError "no image"))
           (fun _ => "ffffffffffffffff") run_one "3k" "hello" "alice" "t" "u"
           (App.Decoded tt) "ffffffffffffffff" {[ "text" := "hello" ]}).
  reflexivity.
Defined.

(** ** Status and vouch count (C4) *)

Lemma verifier_vouch_unfold h voucher w :
  Verifier.vouch_for_content h voucher w =
  match Database.get_verification h w with
  | (Ok None, w1) => (Ok not_found, w1)
  | (Ok (Some v), w1) =>
      if String.eqb (Database.user_id v) voucher then (Ok self_vouch, w1)
      else
        match Database.add_vouch h voucher w1 with
        | (Ok (Some r), w2) => (Ok (vouch_done (Database.vouches r)), w2)
        | (Ok None, w2) => (Ok vouch_failed, w2)
        | (Raise e, w2) =>
            (Ok {[ "success" := Verifier.VBool false;
                   "message" :=
                     Verifier.VStr ("Vouching error: " +:+ str_of_exn e) ]},
             w2)
        end
  | (Raise e, w1) =>
      (Ok {[ "success" := Verifier.VBool false;
             "message" :=
               Verifier.VStr ("Vouching error: " +:+ str_of_exn e) ]}, w1)
  end.
Proof.
  unfold Verifier.vouch_for_content, Database.try_except, Database.bind.
  destruct (Database.get_verification h w) as [[[v|]|e] w1]; try reflexivity.
  destruct (String.eqb (Database.user_id v) voucher); [reflexivity|].
  destruct (Database.add_vouch h voucher w1) as [[[r|]|e] w2]; reflexivity.
Qed.

(** ** The operations, by the outcome of the coming requests *)

(** [store_verification] makes one request: it fails, or the key is
    already in the table, or the row is stored. *)
Lemma store_verification_at h uri uid ctype ctx w :
  Database.store_verification h uri uid ctype ctx w =
  match Database.faults w with
  | Some msg :: _ => (Ok None, after_fault w msg)
  | _ =>
      match Database.table w !! h with
      | Some _ => (Ok None, after_fault w duplicate_key)
      | None =>
          let r := attested h uri uid ctype ctx (Database.now w) in
          (Ok (Some r),
           Database.World (<[h := r]> (Database.table w))
                          (tail (Database.faults w)) (Database.shown w)
                          (Database.now w))
      end
  end.
Proof.
  destruct w as [t f s n].
  unfold Database.store_verification, Database.try_except, Database.insert,
    Database.bind, Database.reach, Database.ret, Database.st_error.
  cbn [Database.table Database.faults Database.shown Database.now].
  destruct f as [|[msg|] f]; [| reflexivity |];
    cbn [Database.table Database.faults Database.shown Database.now];
    destruct (t !! h) as [r|] eqn:Hr; reflexivity.
Qed.

(** The verifier's attestation reports each of these outcomes. *)
Lemma verifier_attest_cases h uri uid ctype ctx w :
  Verifier.verify_human_content h uri uid ctype ctx w =
  match Database.faults w with
  | Some msg :: _ => (Ok store_failed, after_fault w msg)
  | _ =>
      match Database.table w !! h with
      | Some _ => (Ok store_failed, after_fault w duplicate_key)
      | None =>
          let r := attested h uri uid ctype ctx (Database.now w) in
          (Ok (attest_done r),
           Database.World (<[h := r]> (Database.table w))
                          (tail (Database.faults w)) (Database.shown w)
                          (Database.now w))
      end
  end.
Proof.
  rewrite verify_human_content_unfold, store_verification_at.
  destruct (Database.faults w) as [|[msg|] f]; [| reflexivity |];
    destruct (Database.table w !! h); reflexivity.
Qed.

(** [add_vouch] on a record that exists makes two requests, the read
    and the update; the first that fails ends it. *)
Lemma add_vouch_at h voucher w r :
  Database.table w !! h = Some r ->
  Database.add_vouch h voucher w =
  match Database.faults w with
  | Some msg :: _ => (Ok None, after_fault w msg)
  | _ =>
      match Database.faults (after_request w) with
      | Some msg :: _ => (Ok None, after_fault (after_request w) msg)
      | _ =>
          (Ok (Some (vouched r)),
           Database.World (<[h := vouched r]> (Database.table w))
                          (tail (tail (Database.faults w)))
                          (Database.shown w) (Database.now w))
      end
  end.
Proof.
  destruct w as [t f s n].
  cbn [Database.table Database.faults Database.shown Database.now].
  intros Hr. unfold Database.add_vouch, Database.try_except, Database.bind.
  destruct f as [|[msg|] f].
  - rewrite get_verification_served by reflexivity.
    cbn [Database.table after_request Database.faults tail].
    rewrite Hr. unfold Database.update_eq, Database.bind, Database.reach.
    cbn [Database.table Database.faults Database.shown Database.now
         after_request tail].
    rewrite Hr. reflexivity.
  - rewrite (get_verification_fault h (Database.World t (Some msg :: f) s n) msg f eq_refl). reflexivity.
  - rewrite get_verification_served by reflexivity.
    cbn [Database.table after_request Database.faults tail].
    rewrite Hr. unfold Database.update_eq, Database.bind, Database.reach.
    cbn [Database.table Database.faults Database.shown Database.now
         after_request tail].
    destruct f as [|[msg|] f];
      cbn [Database.table Database.faults Database.shown Database.now
           after_request tail];
      rewrite ?Hr; reflexivity.
Qed.

(** The verifier's vouch makes up to three requests: its own read, and
    the two of [add_vouch]. *)
Lemma verifier_vouch_cases h voucher w :
  Verifier.vouch_for_content h voucher w =
  match Database.faults w with
  | Some msg :: _ => (Ok not_found, after_fault w msg)
  | _ =>
      match Database.table w !! h with
      | None => (Ok not_found, after_request w)
      | Some r =>
          if String.eqb (Database.user_id r) voucher
          then (Ok self_vouch, after_request w)
          else
            let w1 := after_request w in
            let w2 := after_request w1 in
            match Database.faults w1, Database.faults w2 with
            | Some msg :: _, _ => (Ok vouch_failed, after_fault w1 msg)
            | _, Some msg :: _ => (Ok vouch_failed, after_fault w2 msg)
            | _, _ =>
                (Ok (vouch_done (Database.vouches r + 1)),
                 Database.World (<[h := vouched r]> (Database.table w))
                                (tail (Database.faults w2))
                                (Database.shown w) (Database.now w))
            end
      end
  end.
Proof.
  rewrite verifier_vouch_unfold. destruct w as [t f s n].
  cbn [Database.table Database.faults].
  destruct f as [|[msg|] f].
  - rewrite get_verification_served by reflexivity.
    cbn [Database.table]. destruct (t !! h) as [r|] eqn:Hr; [|reflexivity].
    destruct (String.eqb (Database.user_id r) voucher); [reflexivity|].
    rewrite (add_vouch_at h voucher (after_request (Database.World t [] s n))
               r Hr).
    reflexivity.
  - rewrite (get_verification_fault h (Database.World t (Some msg :: f) s n)
               msg f eq_refl).
    reflexivity.
  - rewrite get_verification_served by reflexivity.
    cbn [Database.table]. destruct (t !! h) as [r|] eqn:Hr; [|reflexivity].
    destruct (String.eqb (Database.user_id r) voucher); [reflexivity|].
    rewrite (add_vouch_at h voucher
               (after_request (Database.World t (None :: f) s n)) r Hr).
    cbv zeta. cbn [after_request Database.faults tail].
    destruct f as [|[msg|] [|[msg'|] f]]; reflexivity.
Qed.

(** What an attestation does to the table. *)
Lemma verify_table h uri uid ctype ctx w :
  let w' := (Verifier.verify_human_content h uri uid ctype ctx w).2 in
  Database.table w' = Database.table w \/
  (Database.table w !! h = None /\
   Database.table w'
   = <[h := attested h uri uid ctype ctx (Database.now w)]> (Database.table w)).
Proof.
  cbn. rewrite verify_human_content_unfold.
  destruct (store_verification_cases h uri uid ctype ctx w)
    as [(w' & -> & Ht) | (Hnone & _ & ->)]; cbn; auto.
Qed.

(** What a vouch does to the table. *)
Lemma vouch_table h voucher w :
  let w' := (Verifier.vouch_for_content h voucher w).2 in
  Database.table w' = Database.table w \/
  (exists r, Database.table w !! h = Some r /\
             Database.table w' = <[h := vouched r]> (Database.table w)).
Proof.
  cbn. rewrite verifier_vouch_unfold.
  destruct (get_verification_total h w) as (w1 & -> & Ht1).
  destruct (if served w then Database.table w !! h else None) as [v|];
    [|left; exact Ht1].
  destruct (String.eqb (Database.user_id v) voucher); [left; exact Ht1|].
  destruct (add_vouch_cases h voucher w1)
    as [(w2 & -> & Ht2) | (r & w2 & Hr & -> & Ht2)]; cbn.
  - left. congruence.
  - right. exists r. rewrite Ht2, <- Ht1. split; [congruence | reflexivity].
Qed.

Lemma bump_consistent e : entry_consistent e -> entry_consistent (App.bump e).
Proof.
  unfold entry_consistent, App.bump. cbn. intros He.
  destruct (3 <=? App.vouches e + 1) eqn:Hn; [reflexivity|].
  rewrite He. destruct (3 <=? App.vouches e) eqn:Hv; [lia | reflexivity].
Qed.

Lemma vouched_consistent r : row_consistent (vouched r).
Proof. reflexivity. Qed.

Lemma app_step_consistent s op :
  (forall h e, App.find h s = Some e -> entry_consistent e) ->
  forall h e, App.find h (app_step s op) = Some e -> entry_consistent e.
Proof.
  intros IH h e. destruct s as [connected ledger].
  destruct op as [h0 uri ctype ctx now|h0]; cbn;
    unfold App.verify_human_content, App.vouch_for_content; cbn;
    destruct connected; cbn; try apply (IH h e).
  - unfold App.find; cbn.
    destruct (decide (h0 = h)) as [->|Hne].
    + rewrite lookup_insert_eq. intros [= <-]. reflexivity.
    + rewrite lookup_insert_ne by assumption.
      destruct ledger as [m|]; cbn; [apply (IH h e) | discriminate].
  - destruct ledger as [m|]; cbn; [|apply (IH h e)].
    destruct (m !! h0) as [e0|] eqn:He0; cbn; [|apply (IH h e)].
    unfold App.find; cbn.
    destruct (decide (h0 = h)) as [->|Hne].
    + rewrite lookup_insert_eq. intros [= <-].
      apply bump_consistent, (IH h e0). exact He0.
    + rewrite lookup_insert_ne by assumption. apply (IH h e).
Qed.

Lemma app_run_consistent ops s :
  (forall h e, App.find h s = Some e -> entry_consistent e) ->
  forall h e, App.find h (app_run ops s) = Some e -> entry_consistent e.
Proof.
  revert s. induction ops as [|op ops IH]; intros s Hs; [exact Hs|].
  cbn. apply IH. exact (app_step_consistent s op Hs).
Qed.

Lemma db_step_consistent w op :
  (forall h r, Database.table w !! h = Some r -> row_consistent r) ->
  forall h r, Database.table (db_step w op) !! h = Some r -> row_consistent r.
Proof.
  intros IH h r. destruct op as [h0 uri uid ctype ctx|h0 voucher]; cbn.
  - destruct (verify_table h0 uri uid ctype ctx w) as [-> | [_ ->]];
      [apply IH|].
    destruct (decide (h0 = h)) as [->|Hne].
    + rewrite lookup_insert_eq. intros [= <-]. reflexivity.
    + rewrite lookup_insert_ne by assumption. apply IH.
  - destruct (vouch_table h0 voucher w) as [-> | (r0 & _ & ->)]; [apply IH|].
    destruct (decide (h0 = h)) as [->|Hne].
    + rewrite lookup_insert_eq. intros [= <-]. apply vouched_consistent.
    + rewrite lookup_insert_ne by assumption. apply IH.
Qed.

Lemma db_run_consistent ops w :
  (forall h r, Database.table w !! h = Some r -> row_consistent r) ->
  forall h r, Database.table (db_run ops w) !! h = Some r -> row_consistent r.
Proof.
  revert w. induction ops as [|op ops IH]; intros w Hw; [exact Hw|].
  cbn. apply IH. exact (db_step_consistent w op Hw).
Qed.

(** C4. Whatever attestations and vouches were run, from a session
    without ledger and from an empty table, and whatever requests to the
    storage service failed on the way, every record of either ledger is
    community-vouched exactly when its vouch count is at least 3, and
    self-attested otherwise. *)
Theorem status_follows_vouch_count :
  forall (connected : bool) (ops : list app_op) (h : string) (e : App.entry)
         (w0 : Database.world) (dbops : list db_op) (h' : string)
         (r : Database.row),
    Database.table w0 = ∅ ->
    App.find h (app_run ops (App.fresh connected)) = Some e ->
    Database.table (db_run dbops w0) !! h' = Some r ->
    ((App.status e = "COMMUNITY_VOUCHED" <-> 3 <= App.vouches e) /\
     (App.vouches e < 3 -> App.status e = "SELF_ATTESTED")) /\
    ((Database.status r = 2 <-> 3 <= Database.vouches r) /\
     (Database.vouches r < 3 -> Database.status r = 1)).
Proof.
  intros connected ops h e w0 dbops h' r Hw0 He Hr.
  assert (Ce : entry_consistent e).
  { apply (app_run_consistent ops (App.fresh connected)) with (h := h);
      [|exact He].
    intros h1 e1. unfold App.find. cbn. discriminate. }
  assert (Cr : row_consistent r).
  { apply (db_run_consistent dbops w0) with (h := h'); [|exact Hr].
    intros h1 r1. rewrite Hw0, lookup_empty. discriminate. }
  unfold entry_consistent in Ce. unfold row_consistent in Cr.
  rewrite Ce, Cr.
  destruct (3 <=? App.vouches e) eqn:Hv;
    destruct (3 <=? Database.vouches r) eqn:Hn;
    repeat split; intros; try lia; try reflexivity; try discriminate.
Qed.

Lemma status_follows_vouch_count_witness :
  let e := App.Entry "fp" "u" 1 "" "t" "COMMUNITY_VOUCHED" 3 in
  let r := Database.Row "fp" "u" "alice" 1 "" 2 4 "t0" in
  ((App.status e = "COMMUNITY_VOUCHED" <-> 3 <= App.vouches e) /\
   (App.vouches e < 3 -> App.status e = "SELF_ATTESTED")) /\
  ((Database.status r = 2 <-> 3 <= Database.vouches r) /\
   (Database.vouches r < 3 -> Database.status r = 1)).
Proof.
  apply (status_follows_vouch_count false
           [AppAttest "fp" "u" 1 "" "t"; AppVouch "fp"; AppVouch "fp";
            AppVouch "fp"]
           "fp" (App.Entry "fp" "u" 1 "" "t" "COMMUNITY_VOUCHED" 3)
           (Database.World ∅ [None; Some "timeout"] [] "t0")
           [DbAttest "fp" "u" "alice" 1 ""; DbVouch "fp" "bob";
            DbVouch "fp" "bob"; DbVouch "fp" "carol"; DbVouch "fp" "dave";
            DbVouch "fp" "erin"]
           "fp" (Database.Row "fp" "u" "alice" 1 "" 2 4 "t0"));
    reflexivity.
Defined.

(** ** Vouching (C5, C6) *)

Lemma local_vouch_at m h e :
  m !! h = Some e ->
  App.vouch_for_content h (App.Session false (Some m))
  = (local_vouch_done (App.vouches e + 1),
     App.Session false (Some (<[h := App.bump e]> m))).
Proof.
  intros He. unfold App.vouch_for_content. cbn. rewrite He. reflexivity.
Qed.

Lemma stored_vouch_at t s n h r voucher :
  t !! h = Some r ->
  String.eqb (Database.user_id r) voucher = false ->
  Verifier.vouch_for_content h voucher (Database.World t [] s n)
  = (Ok (vouch_done (Database.vouches r + 1)),
     Database.World (<[h := vouched r]> t) [] s n).
Proof.
  intros Hr Hne. rewrite verifier_vouch_unfold.
  rewrite get_verification_served by reflexivity. cbn. rewrite Hr, Hne.
  unfold Database.add_vouch, Database.try_except, Database.bind.
  rewrite get_verification_served by reflexivity. cbn. rewrite Hr.
  unfold Database.update_eq, Database.bind, Database.reach, Database.ret.
  cbn. rewrite Hr. reflexivity.
Qed.

(** Whenever a vouch succeeds, in either ledger, the count of the record
    grows by exactly one. *)
Lemma local_vouch_increments s h e :
  App.w3_connected s = false ->
  App.find h s = Some e ->
  (App.vouch_for_content h s).1 = local_vouch_done (App.vouches e + 1) /\
  App.find h (App.vouch_for_content h s).2 = Some (App.bump e).
Proof.
  destruct s as [connected [m|]]; cbn; intros -> He; [|discriminate].
  rewrite (local_vouch_at m h e He). split; [reflexivity|].
  unfold App.find. cbn. apply lookup_insert_eq.
Qed.

Lemma stored_vouch_increments h voucher w r d w' :
  Database.table w !! h = Some r ->
  Verifier.vouch_for_content h voucher w = (Ok d, w') ->
  d !! "success" = Some (Verifier.VBool true) ->
  d = vouch_done (Database.vouches r + 1) /\
  Database.table w' = <[h := vouched r]> (Database.table w).
Proof.
  intros Hr. rewrite verifier_vouch_unfold.
  destruct (get_verification_total h w) as (w1 & -> & Ht1).
  destruct (if served w then Database.table w !! h else None) as [v|];
    [|intros [= <- <-] Hd; vm_compute in Hd; discriminate].
  destruct (String.eqb (Database.user_id v) voucher);
    [intros [= <- <-] Hd; vm_compute in Hd; discriminate|].
  destruct (add_vouch_cases h voucher w1)
    as [(w2 & -> & Ht2) | (r0 & w2 & Hr0 & -> & Ht2)].
  - intros [= <- <-] Hd. vm_compute in Hd. discriminate.
  - intros [= <- <-] _. rewrite Ht1, Hr in Hr0. injection Hr0 as <-.
    split; [reflexivity|]. rewrite Ht2, Ht1. reflexivity.
Qed.

(** C5. From a record with no vouch and the status self-attested, four
    vouches in a row (by vouchers other than the attester, with the
    storage service available; the vouchers need not even differ) succeed
    and report the counts 1, 2, 3 and 4; the record holds these counts in
    turn, with the status self-attested after the first and the second,
    and community-vouched after the third and the fourth. This holds in
    the session ledger and in the stored one. *)
Theorem vouch_monotonicity :
  forall (s : App.session) (w : Database.world) (h v1 v2 v3 v4 : string)
         (e : App.entry) (r : Database.row),
    App.w3_connected s = false ->
    App.find h s = Some e ->
    App.vouches e = 0 ->
    App.status e = "SELF_ATTESTED" ->
    Database.faults w = [] ->
    Database.table w !! h = Some r ->
    Database.vouches r = 0 ->
    Database.status r = 1 ->
    String.eqb (Database.user_id r) v1 = false ->
    String.eqb (Database.user_id r) v2 = false ->
    String.eqb (Database.user_id r) v3 = false ->
    String.eqb (Database.user_id r) v4 = false ->
    let a1 := App.vouch_for_content h s in
    let a2 := App.vouch_for_content h a1.2 in
    let a3 := App.vouch_for_content h a2.2 in
    let a4 := App.vouch_for_content h a3.2 in
    let b1 := Verifier.vouch_for_content h v1 w in
    let b2 := Verifier.vouch_for_content h v2 b1.2 in
    let b3 := Verifier.vouch_for_content h v3 b2.2 in
    let b4 := Verifier.vouch_for_content h v4 b3.2 in
    [a1.1; a2.1; a3.1; a4.1]
    = [local_vouch_done 1; local_vouch_done 2; local_vouch_done 3;
       local_vouch_done 4] /\
    [local_seen h a1.2; local_seen h a2.2; local_seen h a3.2;
     local_seen h a4.2]
    = [Some (1, "SELF_ATTESTED"); Some (2, "SELF_ATTESTED");
       Some (3, "COMMUNITY_VOUCHED"); Some (4, "COMMUNITY_VOUCHED")] /\
    [b1.1; b2.1; b3.1; b4.1]
    = [Ok (vouch_done 1); Ok (vouch_done 2); Ok (vouch_done 3);
       Ok (vouch_done 4)] /\
    [stored_seen h b1.2; stored_seen h b2.2; stored_seen h b3.2;
     stored_seen h b4.2]
    = [Some (1, 1); Some (2, 1); Some (3, 2); Some (4, 2)].
Proof.
  intros s w h v1 v2 v3 v4 e r Hlocal He Hcount Hstatus Hfaults Hr Hvouches
         Hst H1 H2 H3 H4.
  destruct s as [connected [m|]]; cbn in Hlocal, He; [|discriminate].
  subst connected.
  destruct w as [t f shown now]. cbn in Hfaults, Hr. subst f.
  destruct e as [eh euri etype ectx ets est en]. cbn in Hcount, Hstatus.
  subst est en.
  destruct r as [rh ruri ruid rtype rctx rst rn rat].
  cbn in Hvouches, Hst, H1, H2, H3, H4. subst rst rn. cbv zeta.
  rewrite (local_vouch_at m h _ He). cbn [fst snd].
  rewrite (local_vouch_at _ h _ (lookup_insert_eq _ _ _)). cbn [fst snd].
  rewrite (local_vouch_at _ h _ (lookup_insert_eq _ _ _)). cbn [fst snd].
  rewrite (local_vouch_at _ h _ (lookup_insert_eq _ _ _)). cbn [fst snd].
  rewrite (stored_vouch_at t shown now h _ v1 Hr H1). cbn [fst snd].
  rewrite (stored_vouch_at _ shown now h _ v2 (lookup_insert_eq _ _ _))
    by exact H2.
  cbn [fst snd].
  rewrite (stored_vouch_at _ shown now h _ v3 (lookup_insert_eq _ _ _))
    by exact H3.
  cbn [fst snd].
  rewrite (stored_vouch_at _ shown now h _ v4 (lookup_insert_eq _ _ _))
    by exact H4.
  cbn [fst snd].
  unfold local_seen, stored_seen, App.find. cbn.
  rewrite !lookup_insert_eq. cbn. repeat split.
Qed.

Lemma vouch_monotonicity_witness :
  let s := (App.verify_human_content "fp" "u" 1 "" "t" (App.fresh false)).2 in
  let w := (Verifier.verify_human_content "fp" "u" "alice" 1 ""
              (Database.World ∅ [] [] "t0")).2 in
  let a1 := App.vouch_for_content "fp" s in
  let a2 := App.vouch_for_content "fp" a1.2 in
  let a3 := App.vouch_for_content "fp" a2.2 in
  let a4 := App.vouch_for_content "fp" a3.2 in
  let b1 := Verifier.vouch_for_content "fp" "bob" w in
  let b2 := Verifier.vouch_for_content "fp" "carol" b1.2 in
  let b3 := Verifier.vouch_for_content "fp" "dave" b2.2 in
  let b4 := Verifier.vouch_for_content "fp" "erin" b3.2 in
  [a1.1; a2.1; a3.1; a4.1]
  = [local_vouch_done 1; local_vouch_done 2; local_vouch_done 3;
     local_vouch_done 4] /\
  [local_seen "fp" a1.2; local_seen "fp" a2.2; local_seen "fp" a3.2;
   local_seen "fp" a4.2]
  = [Some (1, "SELF_ATTESTED"); Some (2, "SELF_ATTESTED");
     Some (3, "COMMUNITY_VOUCHED"); Some (4, "COMMUNITY_VOUCHED")] /\
  [b1.1; b2.1; b3.1; b4.1]
  = [Ok (vouch_done 1); Ok (vouch_done 2); Ok (vouch_done 3);
     Ok (vouch_done 4)] /\
  [stored_seen "fp" b1.2; stored_seen "fp" b2.2; stored_seen "fp" b3.2;
   stored_seen "fp" b4.2]
  = [Some (1, 1); Some (2, 1); Some (3, 2); Some (4, 2)].
Proof.
  apply (vouch_monotonicity
           (App.verify_human_content "fp" "u" 1 "" "t" (App.fresh false)).2
           (Verifier.verify_human_content "fp" "u" "alice" 1 ""
              (Database.World ∅ [] [] "t0")).2
           "fp" "bob" "carol" "dave" "erin"
           (App.Entry "fp" "u" 1 "" "t" "SELF_ATTESTED" 0)
           (attested "fp" "u" "alice" 1 "" "t0"));
    reflexivity.
Defined.

(** A dictionary with [success] false and a message reports a failure,
    and no dictionary reports both. *)
Lemma failure_reported (m : string) :
  reports_failure {[ "success" := Verifier.VBool false;
                     "message" := Verifier.VStr m ]}.
Proof. split; [reflexivity | exists m; reflexivity]. Qed.

Lemma failure_is_no_success d : reports_failure d -> ~ reports_success d.
Proof.
  unfold reports_success, Verifier.VBool. intros [Hf _] Hs.
  rewrite Hf in Hs. discriminate.
Qed.

(** C6, counterexample. In the session ledger the session that attested
    the fingerprint [fp] vouches for it itself: the vouch succeeds and
    the entry then counts one vouch. *)
Example session_vouches_for_its_own_attestation :
  let attest :=
    App.verify_human_content "fp" "u" 1 "" "t" (App.fresh false) in
  let vouch := App.vouch_for_content "fp" attest.2 in
  attest.1 !! "success" = Some (SBool true) /\
  local_seen "fp" attest.2 = Some (0, "SELF_ATTESTED") /\
  vouch.1 !! "success" = Some (SBool true) /\
  vouch.1 !! "vouches" = Some (SInt 1) /\
  local_seen "fp" vouch.2 = Some (1, "SELF_ATTESTED").
Proof.
  cbv zeta. split; [reflexivity|]. split; [reflexivity|].
  split; [reflexivity|]. split; reflexivity.
Qed.

(** C6, as amended. In the stored ledger a vouch by the attester of an
    existing record never succeeds and never changes the table: when the
    storage service answers the read it is refused with the message that
    one cannot vouch for one's own content, and nothing is displayed;
    when the read fails it is answered as for a missing record. The
    session ledger keeps no attester and its vouch takes no voucher: a
    vouch for an existing entry always reports success, and in local
    mode it counts, also when the same session attested the entry just
    before. *)
Theorem self_vouch_by_ledger :
  forall (w : Database.world) (h : string) (r : Database.row)
         (s : App.session) (e : App.entry) (uri ctx now : string) (ctype : Z),
    Database.table w !! h = Some r ->
    App.find h s = Some e ->
    let out := Verifier.vouch_for_content h (Database.user_id r) w in
    let loc := App.vouch_for_content h s in
    let own :=
      App.vouch_for_content
        h (App.verify_human_content h uri ctype ctx now s).2 in
    (served w = true -> out = (Ok self_vouch, after_request w)) /\
    (exists d, out.1 = Ok d /\ reports_failure d) /\
    Database.table out.2 = Database.table w /\
    loc.1 !! "success" = Some (SBool true) /\
    (App.w3_connected s = false ->
     loc.1 = local_vouch_done (App.vouches e + 1) /\
     App.find h loc.2 = Some (App.bump e) /\
     own.1 = local_vouch_done 1 /\
     local_seen h own.2 = Some (1, "SELF_ATTESTED")).
Proof.
  intros w h r s e uri ctx now ctype Hr He out loc own.
  assert (Hout : out = if served w then (Ok self_vouch, after_request w)
                       else (Ok not_found, out.2)).
  { subst out. rewrite verifier_vouch_cases. unfold served.
    destruct (Database.faults w) as [|[msg|] f];
      rewrite ?Hr, ?String.eqb_refl; reflexivity. }
  assert (Htable : Database.table out.2 = Database.table w).
  { subst out. rewrite verifier_vouch_cases.
    destruct (Database.faults w) as [|[msg|] f];
      rewrite ?Hr, ?String.eqb_refl; reflexivity. }
  split; [intros Hs; rewrite Hout, Hs; reflexivity|].
  split.
  { rewrite Hout. destruct (served w); eexists; (split; [reflexivity|]);
      apply failure_reported. }
  split; [exact Htable|].
  destruct s as [connected ledger]. unfold App.find in He. cbn in He.
  destruct ledger as [m|]; [|discriminate].
  split.
  { subst loc. unfold App.vouch_for_content.
    cbn [App.w3_connected App.human_verified_content].
    destruct connected; cbn [negb]; [reflexivity|]. rewrite He. reflexivity. }
  cbn [App.w3_connected]. intros ->.
  subst loc own. rewrite (local_vouch_at m h e He). cbn [fst snd].
  split; [reflexivity|].
  split; [unfold App.find; cbn; apply lookup_insert_eq|].
  unfold App.verify_human_content.
  cbn [App.w3_connected App.human_verified_content negb default].
  cbn [fst snd].
  rewrite (local_vouch_at _ h _ (lookup_insert_eq _ _ _)). cbn [fst snd].
  split; [reflexivity|].
  unfold local_seen, App.find. cbn. rewrite lookup_insert_eq. reflexivity.
Qed.

Lemma self_vouch_by_ledger_witness :
  let r := attested "fp" "u" "alice" 1 "" "t0" in
  let w := Database.World {[ "fp" := r ]} [] [] "t1" in
  let e := App.Entry "fp" "u" 1 "" "t" "SELF_ATTESTED" 0 in
  let s := (App.verify_human_content "fp" "u" 1 "" "t" (App.fresh false)).2 in
  let out := Verifier.vouch_for_content "fp" "alice" w in
  let loc := App.vouch_for_content "fp" s in
  let own :=
    App.vouch_for_content
      "fp" (App.verify_human_content "fp" "u2" 2 "again" "t2" s).2 in
  out = (Ok self_vouch, after_request w) /\
  (exists d, out.1 = Ok d /\ reports_failure d) /\
  Database.table out.2 = Database.table w /\
  loc.1 !! "success" = Some (SBool true) /\
  loc.1 = local_vouch_done 1 /\
  App.find "fp" loc.2 = Some (App.bump e) /\
  own.1 = local_vouch_done 1 /\
  local_seen "fp" own.2 = Some (1, "SELF_ATTESTED").
Proof.
  cbv zeta.
  destruct (self_vouch_by_ledger
              (Database.World
                 {[ "fp" := attested "fp" "u" "alice" 1 "" "t0" ]} [] [] "t1")
              "fp" (attested "fp" "u" "alice" 1 "" "t0")
              (App.verify_human_content "fp" "u" 1 "" "t" (App.fresh false)).2
              (App.Entry "fp" "u" 1 "" "t" "SELF_ATTESTED" 0)
              "u2" "again" "t2" 2)
    as (Hout & Hd & Ht & Hok & Hloc); [reflexivity | reflexivity |].
  destruct Hloc as (H1 & H2 & H3 & H4); [reflexivity|].
  split; [apply Hout; reflexivity|].
  split; [exact Hd|]. split; [exact Ht|]. split; [exact Hok|].
  split; [exact H1|]. split; [exact H2|]. split; [exact H3 | exact H4].
Defined.

(** ** Failures of the storage service (C7, C10) *)

(** C7, counterexample. With the record of [fp] stored and the storage
    service failing, a vouch and a lookup return what they return for a
    fingerprint that was never attested, and an attestation returns what
    it returns for a fingerprint attested before; the failure is
    displayed by the storage layer and no exception reaches the caller. *)
Example outage_reads_as_not_found :
  let r := attested "fp" "u" "alice" 1 "" "t0" in
  let down := Database.World {[ "fp" := r ]} [Some "timeout"] [] "t1" in
  let up := Database.World {[ "fp" := r ]} [] [] "t1" in
  (Verifier.vouch_for_content "fp" "bob" down).1
  = (Verifier.vouch_for_content "unknown" "bob" up).1 /\
  (Verifier.check_verification_status "fp" down).1
  = (Verifier.check_verification_status "unknown" up).1 /\
  (Verifier.verify_human_content "new" "u" "bob" 1 "" down).1
  = (Verifier.verify_human_content "fp" "u" "bob" 1 "" up).1 /\
  is_ok (Verifier.vouch_for_content "fp" "bob" down).1 = true /\
  Database.shown (Verifier.vouch_for_content "fp" "bob" down).2
  = ["Database error: timeout"].
Proof.
  cbv zeta. split; [reflexivity|]. split; [reflexivity|].
  split; [reflexivity|]. split; reflexivity.
Qed.

(** The lookup makes one request. *)
Lemma lookup_cases h w :
  Verifier.check_verification_status h w =
  match Database.faults w with
  | Some msg :: _ => (Ok no_record, after_fault w msg)
  | _ =>
      match Database.table w !! h with
      | Some r => (Ok (Verifier.status_of_row r), after_request w)
      | None => (Ok no_record, after_request w)
      end
  end.
Proof.
  unfold Verifier.check_verification_status, Database.bind.
  destruct w as [t f s n]. cbn [Database.table Database.faults].
  destruct f as [|[msg|] f];
    [ rewrite get_verification_served by reflexivity
    | rewrite (get_verification_fault h (Database.World t (Some msg :: f) s n)
                 msg f eq_refl); reflexivity
    | rewrite get_verification_served by reflexivity ];
    cbn [Database.table]; destruct (t !! h); reflexivity.
Qed.

(** C7, as amended. Whichever request to the storage service fails, the
    storage layer displays the error and returns nothing, no exception
    reaches the caller and the table is unchanged. When the first
    request fails, the attestation returns its failure dictionary and
    the vouch and the lookup return what they return for a fingerprint
    with no record. When the vouch found the record of another attester
    and its second or its third request fails, it reports that the
    vouch could not be added. With the service available, a fingerprint
    with no record gives the vouch and the lookup the same results as a
    failed first request, and a fingerprint already attested gives the
    attestation the same result. The attestation and the lookup make
    one request and the vouch at most three, so these are all the
    requests that can fail. *)
Theorem storage_failure_is_absorbed :
  forall (w : Database.world) (msg : string) (rest : list (option string))
         (h uri uid ctx voucher : string) (ctype : Z),
    let attest := Verifier.verify_human_content h uri uid ctype ctx w in
    let vouch := Verifier.vouch_for_content h voucher w in
    let lookup := Verifier.check_verification_status h w in
    (Database.faults w = Some msg :: rest ->
     attest = (Ok store_failed, after_fault w msg) /\
     vouch = (Ok not_found, after_fault w msg) /\
     lookup = (Ok no_record, after_fault w msg)) /\
    (forall r,
        Database.table w !! h = Some r ->
        String.eqb (Database.user_id r) voucher = false ->
        Database.faults w = None :: Some msg :: rest \/
        Database.faults w = None :: None :: Some msg :: rest ->
        vouch = (Ok vouch_failed,
                 Database.World (Database.table w) rest
                   (Database.shown w ++ ["Database error: " +:+ msg])
                   (Database.now w))) /\
    (served w = true ->
     (Database.table w !! h = None ->
      vouch.1 = Ok not_found /\ lookup.1 = Ok no_record) /\
     (Database.table w !! h <> None -> attest.1 = Ok store_failed)) /\
    Database.faults attest.2 = tail (Database.faults w) /\
    Database.faults lookup.2 = tail (Database.faults w) /\
    (exists k, (1 <= k <= 3)%nat /\
               Database.faults vouch.2 = drop k (Database.faults w)).
Proof.
  intros w msg rest h uri uid ctx voucher ctype attest vouch lookup.
  subst attest vouch lookup.
  rewrite verifier_attest_cases, verifier_vouch_cases, lookup_cases.
  destruct w as [t f s n].
  cbn [Database.table Database.faults Database.shown Database.now].
  split; [intros ->; repeat split|].
  split.
  { intros r Hr Hne [-> | ->]; rewrite Hr, Hne; reflexivity. }
  split.
  { unfold served. cbn [Database.faults]. intros Hs.
    destruct f as [|[m|] f]; try discriminate;
      (split; [intros ->; split; reflexivity|]);
      destruct (t !! h); try reflexivity; intros H; contradiction H;
      reflexivity. }
  split; [destruct f as [|[m|] f]; try destruct (t !! h); reflexivity|].
  split; [destruct f as [|[m|] f]; try destruct (t !! h); reflexivity|].
  destruct f as [|[m|] f]; [| exists 1%nat; split; [lia | reflexivity] |];
    (destruct (t !! h) as [r|]; [| exists 1%nat; split; [lia | reflexivity]]);
    (destruct (String.eqb (Database.user_id r) voucher);
     [exists 1%nat; split; [lia | reflexivity]|]);
    cbv zeta; cbn [after_request Database.faults tail].
  - exists 3%nat. split; [lia | reflexivity].
  - destruct f as [|[m1|] [|[m2|] f]].
    + exists 3%nat. split; [lia | reflexivity].
    + exists 2%nat. split; [lia | reflexivity].
    + exists 2%nat. split; [lia | reflexivity].
    + exists 2%nat. split; [lia | reflexivity].
    + exists 3%nat. split; [lia | reflexivity].
    + exists 3%nat. split; [lia | reflexivity].
    + exists 3%nat. split; [lia | reflexivity].
Qed.

Lemma storage_failure_is_absorbed_witness :
  let t : gmap string Database.row :=
    {[ "fp" := attested "fp" "u" "alice" 1 "" "t0" ]} in
  let first := Database.World t [Some "timeout"; None] [] "t1" in
  let second := Database.World t [None; Some "timeout"; None] [] "t1" in
  let third := Database.World t [None; None; Some "timeout"; None] [] "t1" in
  let shown := Database.World t [None] ["Database error: timeout"] "t1" in
  (Verifier.verify_human_content "new" "u" "bob" 1 "" first
   = (Ok store_failed, shown) /\
   Verifier.vouch_for_content "new" "bob" first = (Ok not_found, shown) /\
   Verifier.check_verification_status "new" first = (Ok no_record, shown)) /\
  Verifier.vouch_for_content "fp" "bob" first = (Ok not_found, shown) /\
  Verifier.vouch_for_content "fp" "bob" second = (Ok vouch_failed, shown) /\
  Verifier.vouch_for_content "fp" "bob" third = (Ok vouch_failed, shown).
Proof.
  cbv zeta.
  destruct (storage_failure_is_absorbed
              (Database.World
                 {[ "fp" := attested "fp" "u" "alice" 1 "" "t0" ]}
                 [Some "timeout"; None] [] "t1")
              "timeout" [None] "new" "u" "bob" "" "bob" 1) as (Hnew & _).
  destruct (storage_failure_is_absorbed
              (Database.World
                 {[ "fp" := attested "fp" "u" "alice" 1 "" "t0" ]}
                 [Some "timeout"; None] [] "t1")
              "timeout" [None] "fp" "u" "bob" "" "bob" 1) as (Hfirst & _).
  destruct (storage_failure_is_absorbed
              (Database.World
                 {[ "fp" := attested "fp" "u" "alice" 1 "" "t0" ]}
                 [None; Some "timeout"; None] [] "t1")
              "timeout" [None] "fp" "u" "bob" "" "bob" 1) as (_ & Hsecond & _).
  destruct (storage_failure_is_absorbed
              (Database.World
                 {[ "fp" := attested "fp" "u" "alice" 1 "" "t0" ]}
                 [None; None; Some "timeout"; None] [] "t1")
              "timeout" [None] "fp" "u" "bob" "" "bob" 1) as (_ & Hthird & _).
  split; [apply Hnew; reflexivity|].
  split; [apply Hfirst; reflexivity|].
  split.
  - apply (Hsecond (attested "fp" "u" "alice" 1 "" "t0"));
      [reflexivity | reflexivity | left; reflexivity].
  - apply (Hthird (attested "fp" "u" "alice" 1 "" "t0"));
      [reflexivity | reflexivity | right; reflexivity].
Defined.

(** A vouch whose first read is served and whose next request fails
    reports that the vouch could not be added, and changes no row. *)
Lemma vouch_failure_after_read h voucher w r msg rest :
  Database.faults w = None :: Some msg :: rest ->
  Database.table w !! h = Some r ->
  String.eqb (Database.user_id r) voucher = false ->
  (Verifier.vouch_for_content h voucher w).1 = Ok vouch_failed /\
  Database.table (Verifier.vouch_for_content h voucher w).2
  = Database.table w.
Proof.
  destruct w as [t f s n]. cbn. intros -> Hr Hne.
  rewrite verifier_vouch_unfold.
  rewrite get_verification_served by reflexivity.
  unfold after_request.
  cbn [Database.table Database.faults Database.shown Database.now tail].
  rewrite Hr, Hne.
  unfold Database.add_vouch, Database.try_except, Database.bind.
  rewrite (get_verification_fault h (Database.World t (Some msg :: rest) s n)
             msg rest eq_refl).
  split; reflexivity.
Qed.

Ltac reported_failure := split; [reflexivity | eexists; reflexivity].

Ltac no_success :=
  let H := fresh in
  intros H; exfalso; revert H; apply failure_is_no_success; reported_failure.

(** The conjuncts that describe one result of the verifier, in the case
    at hand. *)
Ltac shape_of_result :=
  solve [left; reflexivity | right; reported_failure].

Ltac after_display :=
  solve [ let H := fresh in intros H; exfalso; apply H; reflexivity
        | intros _; split; [reported_failure | reflexivity] ].

Ltac failure_or_absurd :=
  solve [intros _; reported_failure | intros [=] | discriminate].

(** C10. Whatever the arguments, the table and the failures of the
    storage service, [verify_human_content] and [vouch_for_content] of
    the verifier raise nothing: each returns a dictionary whose entry
    [success] is a boolean, with a message string when it is false.
    Whenever the storage layer caught an exception on the way, which it
    then displayed, the dictionary reports a failure and the table is
    unchanged; so it does when the storage function called first
    returns nothing, and when a coming request fails. The dictionary
    reports success exactly when the row was stored, respectively when
    the three requests of the vouch were served for a record of another
    attester. *)
Theorem verifier_never_raises :
  forall (h uri uid ctx voucher : string) (ctype : Z) (w : Database.world),
    (exists d w',
        Verifier.verify_human_content h uri uid ctype ctx w = (Ok d, w') /\
        (reports_success d \/ reports_failure d) /\
        (Database.shown w' <> Database.shown w ->
         reports_failure d /\ Database.table w' = Database.table w) /\
        ((Database.store_verification h uri uid ctype ctx w).1 = Ok None ->
         reports_failure d) /\
        (served w = false -> reports_failure d) /\
        (reports_success d <->
         served w = true /\ Database.table w !! h = None)) /\
    (exists d w',
        Verifier.vouch_for_content h voucher w = (Ok d, w') /\
        (reports_success d \/ reports_failure d) /\
        (Database.shown w' <> Database.shown w ->
         reports_failure d /\ Database.table w' = Database.table w) /\
        ((Database.get_verification h w).1 = Ok None -> reports_failure d) /\
        (requests_served 3 w = false -> reports_failure d) /\
        (reports_success d <->
         requests_served 3 w = true /\
         exists r, Database.table w !! h = Some r /\
                   String.eqb (Database.user_id r) voucher = false)).
Proof.
  intros h uri uid ctx voucher ctype w. split.
  - rewrite store_verification_at, verifier_attest_cases.
    destruct w as [t f s n]. unfold served.
    cbn [Database.table Database.faults Database.shown Database.now].
    destruct f as [|[msg|] f];
      [ destruct (t !! h) as [r|] eqn:Hr | | destruct (t !! h) as [r|] eqn:Hr ];
      cbv zeta; eexists _, _; (split; [reflexivity|]);
      cbn [Database.table Database.shown after_fault fst];
      (split; [shape_of_result|]); (split; [after_display|]);
      (split; [failure_or_absurd|]); (split; [failure_or_absurd|]);
      (split;
       [ solve [no_success | intros _; split; reflexivity]
       | solve [ intros _; reflexivity
               | intros [[=] _]
               | intros [_ [=]] ] ]).
  - assert (Hread := get_verification_total h w).
    destruct Hread as (w1 & Hread & _). rewrite Hread. cbn [fst]. clear Hread.
    rewrite verifier_vouch_cases.
    destruct w as [t f s n]. unfold served, requests_served.
    cbn [Database.table Database.faults Database.shown Database.now].
    destruct f as [|[m0|] [|[m1|] [|[m2|] f]]];
      try (destruct (t !! h) as [r|] eqn:Hr;
           [destruct (String.eqb (Database.user_id r) voucher) eqn:He|]);
      cbv zeta;
      cbn [Database.table Database.faults Database.shown Database.now
           after_request after_fault tail take forallb andb];
      eexists _, _; (split; [reflexivity|]);
      (split; [shape_of_result|]); (split; [after_display|]);
      (split; [failure_or_absurd|]); (split; [failure_or_absurd|]);
      (split;
       [ solve [ no_success
               | intros _; split; [reflexivity|]; exists r; split;
                 [reflexivity | exact He] ]
       | solve [ intros _; reflexivity
               | intros [[=] _]
               | intros (_ & r0 & [=] & _)
               | let Hne := fresh in
                 intros (_ & r0 & [= <-] & Hne); rewrite He in Hne;
                 discriminate Hne ] ]).
Qed.

(** ** The certificate (C9) *)

Lemma append_assoc (a b c : string) : (a +:+ b) +:+ c = a +:+ (b +:+ c).
Proof.
  induction a as [|x a IH]; [reflexivity|].
  change (String x ((a +:+ b) +:+ c) = String x (a +:+ (b +:+ c))).
  rewrite IH. reflexivity.
Qed.

(** The text [part] occurs in a longer one. *)
Lemma occurs_here (part rest : string) :
  exists pre post, part +:+ rest = pre +:+ part +:+ post.
Proof. exists "", rest. reflexivity. Qed.

Lemma occurs_right (part a b : string) :
  (exists pre post, b = pre +:+ part +:+ post) ->
  exists pre post, a +:+ b = pre +:+ part +:+ post.
Proof.
  intros (pre & post & ->). exists (a +:+ pre), post.
  symmetry. apply append_assoc.
Qed.

Lemma occurs_left (part a b : string) :
  (exists pre post, a = pre +:+ part +:+ post) ->
  exists pre post, a +:+ b = pre +:+ part +:+ post.
Proof.
  intros (pre & post & ->). exists pre, (post +:+ b).
  rewrite !append_assoc. reflexivity.
Qed.

(** The certificate shows each of its fields. *)
Lemma certificate_shows short creator ctype level count date link :
  let html :=
    Verifier.certificate_html short creator ctype level count date link in
  Forall (fun part => exists pre post, html = pre +:+ part +:+ post)
         [short; creator; ctype; level; count; date; link].
Proof.
  cbv zeta. unfold Verifier.certificate_html, Verifier.indent.
  cbn [Py.join].
  repeat match goal with
         | |- Forall _ _ => constructor
         end.
  all: repeat first
    [ apply occurs_here
    | apply occurs_left; solve [ repeat first
        [ apply occurs_here | apply occurs_right ] ]
    | apply occurs_right ].
Qed.

(** Given a dictionary that holds the fingerprint next to the fields of
    the status, the certificate shows the first 16 characters of the
    fingerprint, the labels of the creation type and of the status, and
    the date reformatted. *)
Lemma certificate_with_fingerprint strftime_iso r fp :
  Verifier.generate_certificate strftime_iso
    (<["content_hash" := SStr fp]> (Verifier.status_of_row r)) false
  = Ok (Some (Verifier.certificate_html
                (Py.prefix 16 fp) (Database.user_id r)
                (Verifier.creation_type_map (Database.creation_type r))
                (Verifier.status_map (Database.status r))
                (Py.str_of_int (Database.vouches r))
                (default (Database.created_at r)
                         (strftime_iso (Database.created_at r)))
                (Database.content_uri r))).
Proof. reflexivity. Qed.

(** C9, the code at the failing input. For every record that exists
    (with the storage service answering), the dictionary that
    [check_verification_status] builds holds no fingerprint, so
    [generate_certificate] raises a [KeyError] on it instead of
    returning a certificate. *)
Theorem certificate_of_status_raises :
  forall (strftime_iso : string -> option string) (w : Database.world)
         (h : string) (r : Database.row),
    served w = true ->
    Database.table w !! h = Some r ->
    (verification <~ (Verifier.check_verification_status h w).1 ;;
     Verifier.generate_certificate strftime_iso verification false)
    = Raise (KeyError "content_hash").
Proof.
  intros strftime_iso w h r Hs Hr.
  unfold Verifier.check_verification_status, Database.bind.
  rewrite get_verification_served by exact Hs. rewrite Hr. reflexivity.
Qed.

Lemma certificate_of_status_raises_witness :
  let w := Database.World {[ "fp" := attested "fp" "u" "alice" 1 "" "t0" ]}
                          [] [] "t1" in
  (verification <~ (Verifier.check_verification_status "fp" w).1 ;;
   Verifier.generate_certificate (fun _ => None) verification false)
  = Raise (KeyError "content_hash").
Proof.
  apply (certificate_of_status_raises (fun _ => None)
           (Database.World {[ "fp" := attested "fp" "u" "alice" 1 "" "t0" ]}
                           [] [] "t1")
           "fp" (attested "fp" "u" "alice" 1 "" "t0"));
    reflexivity.
Defined.
